(** * film_service_auth: the user API views of [src/api/v1/user.py]

    A shallow embedding of the Flask-RESTful views of the authentication
    service (sign-up, login, token refresh, logout, credential update,
    login history, role assignment) and of the collaborators they call,
    followed by the properties of the token life cycle, of the error
    paths and of the role operations.

    Python values are an inductive type, exceptions are an error
    outcome, the SQLAlchemy session and the Redis block-list are threaded
    as explicit state, and every global name a view evaluates is resolved
    against the names the module really binds. *)

From stdpp Require Import base strings list gmap.
From Stdlib Require Import ZArith Lia Ascii.

Set Warnings "-register-all".

Open Scope string_scope.
Open Scope Z_scope.

(** ** Tokens

    The claims of a JWT as flask_jwt_extended encodes them: subject,
    type, token id, issue and expiry time, freshness; [signed_with] is
    the secret the signature was made with. *)

Inductive token_type := access | refresh.

#[export] Instance token_type_eq_dec : EqDecision token_type.
Proof. solve_decision. Defined.

Record Token := mkToken {
  sub : string;
  type : token_type;
  jti : string;
  iat : Z;
  exp : Z;
  fresh : bool;
  signed_with : string }.

(** ** Python values *)

(** The values a JSON body or a response can hold.  [PJwt t] is the
    [str] that encodes token [t]. *)
Inductive pyval :=
  | PNone
  | PBool (b : bool)
  | PInt (z : Z)
  | PStr (s : string)
  | PJwt (t : Token)
  | PList (l : list pyval)
  | PDict (d : list (string * pyval)).

(** Truth value of an object, as [if not data] tests it. *)
Definition truthy (v : pyval) : bool :=
  match v with
  | PNone => false
  | PBool b => b
  | PInt z => negb (z =? 0)
  | PStr s => negb (String.eqb s "")
  | PJwt _ => true
  | PList l => match l with [] => false | _ => true end
  | PDict d => match d with [] => false | _ => true end
  end.

Fixpoint dict_get (k : string) (d : list (string * pyval)) : option pyval :=
  match d with
  | [] => None
  | (k', v) :: d' => if String.eqb k k' then Some v else dict_get k d'
  end.

(** [d[k] = v] on a dict: an existing key keeps its position. *)
Fixpoint dict_set (k : string) (v : pyval) (d : list (string * pyval))
  : list (string * pyval) :=
  match d with
  | [] => [(k, v)]
  | (k', v') :: d' =>
      if String.eqb k k' then (k, v) :: d' else (k', v') :: dict_set k v d'
  end.

(** ** Exceptions and outcomes *)

Inductive rejection := Missing | Malformed | Expired | WrongScope | Revoked.

Inductive exn :=
  | NameError (name : string)
  | KeyError (key : string)
  | TypeError
  | AttributeError
  | IntegrityError
  | DataError
  | DecodeError
  | JWTRejected (r : rejection).

(** The exception classes that the [except] clauses of the module name. *)
Inductive exc_class := cls_IntegrityError | cls_DecodeError.

Definition isinstance (e : exn) (c : exc_class) : bool :=
  match e, c with
  | IntegrityError, cls_IntegrityError => true
  | DecodeError, cls_DecodeError => true
  | _, _ => false
  end.

Inductive Outcome (A : Type) :=
  | Ret (a : A)
  | Raise (e : exn).
Arguments Ret {A} a.
Arguments Raise {A} e.

(** ** The stores *)

Record User := mkUser {
  u_id : string;
  u_login : string;
  u_email : string;
  u_password : string;
  u_first_name : option string;
  u_last_name : option string }.

Record Role := mkRole { r_id : string; r_name : string }.

Record Authentication := mkAuthentication {
  a_user_id : string;
  a_user_agent : string;
  a_time : Z }.

(** The relational store: the three tables and the many-to-many
    association of users and roles, as rows (user id, role id). *)
Record DB := mkDB {
  users : list User;
  roles : list Role;
  roles_users : list (string * string);
  authentications : list Authentication }.

(** An entry of the Redis block-list: [SET key value EX ttl] at [set_at]. *)
Record BlockEntry := mkBlockEntry {
  be_value : string;
  be_ttl : Z;
  be_set_at : Z }.

(** What outlives a request: the database and the block-list. *)
Record World := mkWorld {
  db : DB;
  blocklist : gmap string BlockEntry }.

(** A column of the users table that [setattr] can assign. *)
Inductive user_column := col_id | col_login | col_email | col_password
  | col_first_name | col_last_name.

#[export] Instance user_column_eq_dec : EqDecision user_column.
Proof. solve_decision. Defined.

(** Units of work held by the SQLAlchemy session until [commit]: a new
    user (its default primary key and the columns given), a new
    authentication record, rows of the association added or deleted, and
    the columns assigned on a loaded user. *)
Inductive pending :=
  | InsertUser (default_id : string) (row : list (user_column * pyval))
  | InsertAuthentication (a : Authentication)
  | InsertRoleUser (user_id role_id : string)
  | DeleteRoleUser (user_id role_id : string)
  | UpdateUser (user_id : string) (row : list (user_column * pyval)).

(** The state a view runs in: the world and the request's session. *)
Record St := mkSt {
  world : World;
  session : list pending }.

(** ** The view monad: state, and a value or a raised exception.
    State changes made before an exception is raised are kept. *)

Definition M (A : Type) : Type := St → Outcome A * St.

Definition pure {A} (a : A) : M A := λ s, (Ret a, s).

Definition bind {A B} (m : M A) (f : A → M B) : M B := λ s,
  match m s with
  | (Ret a, s') => f a s'
  | (Raise e, s') => (Raise e, s')
  end.

Notation "x <- c ;; k" := (bind c (λ x, k))
  (at level 100, c at next level, k at level 200, right associativity).
Notation "c ;;; k" := (bind c (λ _, k))
  (at level 100, k at level 200, right associativity).

Definition raise {A} (e : exn) : M A := λ s, (Raise e, s).

Definition lift {A} (o : Outcome A) : M A := λ s, (o, s).

(** [try: body except <cls>: handler].  The expression after [except]
    is evaluated only when the body has raised, and its own exception
    replaces the one in flight. *)
Definition try_except {A} (body : M A) (cls : M exc_class) (handler : M A)
  : M A := λ s,
  match body s with
  | (Ret a, s') => (Ret a, s')
  | (Raise e, s') =>
      match cls s' with
      | (Ret c, s'') => if isinstance e c then handler s'' else (Raise e, s'')
      | (Raise e', s'') => (Raise e', s'')
      end
  end.

(** A request runs with a session of its own, discarded at teardown. *)
Definition run {A} (view : M A) (w : World) : Outcome A * World :=
  let '(o, s) := view (mkSt w []) in (o, world s).

(** ** Names of the module

    The names bound at module level by lines 1-24 (imports and the two
    assignments) and by the eight class statements. *)
Definition module_globals : list string :=
  [ "timedelta";
    "Resource"; "request";
    "hash_password";
    "create_access_token"; "create_refresh_token"; "jwt_required";
    "get_jwt_identity";
    "swag_from";
    "IntegrityError";
    "db";
    "jwt_redis_blocklist";
    "User";
    "Authentication";
    "Role";
    "SQLAlchemy";
    "user_datastore";
    "get_hash"; "check_password";
    "UserSchema";
    "is_uuid";
    "ACCESS_EXPIRES"; "user_schema";
    "SignUp"; "Login"; "RefreshTokens"; "Logout"; "ChangeCreds";
    "LoginHistory"; "UserRoles"; "ChangeUserRoles" ].

(** The built-in names the views use. *)
Definition builtins : list string := [ "str"; "setattr" ].

Definition bound (name : string) : bool :=
  bool_decide (name ∈ module_globals) || bool_decide (name ∈ builtins).

(** Evaluating an expression that starts with the global [name]. *)
Definition global {A} (name : string) (e : M A) : M A :=
  if bound name then e else raise (NameError name).

(** ** The request, and what the module imports from outside *)

(** What a view reads from the request context: the parsed JSON body
    ([PNone] when there is none), the user agent, the bearer token, the
    time of the request and the two random identifiers ([uuid4]) the
    request may draw. *)
Record Request := mkRequest {
  json : pyval;
  user_agent : string;
  authorization : option Token;
  now : Z;
  uuid4 : string * string }.

(** The helpers of [src.utils] and the JWT settings of the application:
    they are imported by the module and defined elsewhere, so the views
    are stated for any of them.  A helper may raise. *)
Record Externals := mkExternals {
  get_hash : pyval → Outcome string;
  check_password : pyval → string → Outcome bool;
  is_uuid : string → bool;
  JWT_SECRET_KEY : string;
  JWT_REFRESH_TOKEN_EXPIRES : Z }.

Definition Response : Type := pyval * Z.

(** [timedelta(hours=h)], in seconds. *)
Definition timedelta_hours (h : Z) : Z := h * 3600.

(** Line 23. *)
Definition ACCESS_EXPIRES : Z := timedelta_hours 1.

(** Modelled from the spec: the JWT configuration of the application is
    not in the module; section 3 fixes the lifetime of an access token
    to one hour. *)
Definition JWT_ACCESS_TOKEN_EXPIRES : Z := 3600.

(** [v[k]] for a string key. *)
Definition subscript (v : pyval) (k : string) : M pyval :=
  match v with
  | PDict d =>
      match dict_get k d with
      | Some x => pure x
      | None => raise (KeyError k)
      end
  | _ => raise TypeError
  end.

(** [v[k] = x] for a string key; the dict is returned as updated. *)
Definition setitem (v : pyval) (k : string) (x : pyval) : M pyval :=
  match v with
  | PDict d => pure (PDict (dict_set k x d))
  | _ => raise TypeError
  end.

(** ** The relational store *)

Module Store.

(** The models and the database ([src.models], [src.db]) are imported by
    the module and defined elsewhere.  Section 6 of the specification
    asks for a relational store of users, roles and authentication
    records with uniqueness constraints on login and email; this module
    is that store. *)

(** Modelled from the spec: the query behind [User.get_by_id], not in
    the module; the user with that primary key. *)
Definition user_by_id (d : DB) (id : string) : option User :=
  List.find (λ u, String.eqb (u_id u) id) (users d).

(** Modelled from the spec: the query behind [Role.find_by_id], not in
    the module; the role with that primary key. *)
Definition role_by_id (d : DB) (id : string) : option Role :=
  List.find (λ r, String.eqb (r_id r) id) (roles d).

(** Modelled from the spec: the query behind [find_user(login=...)], not
    in the module; logins are unique, so at most one user has it. *)
Definition user_by_login (d : DB) (l : string) : option User :=
  List.find (λ u, String.eqb (u_login u) l) (users d).

(** Modelled from the spec: membership in the role set of a user, a set
    with no duplicates (section 4.5); the models are not in the module. *)
Definition has_role (d : DB) (uid rid : string) : bool :=
  bool_decide ((uid, rid) ∈ roles_users d).

(** Modelled from the spec: [user.roles] of the model [User], not in the
    module; the roles associated with the user, in the order of the
    association. *)
Definition roles_of (d : DB) (uid : string) : list Role :=
  omap (λ '(u, r), if String.eqb u uid then role_by_id d r else None)
       (roles_users d).

(** Modelled from the spec: the columns of the model [User], not in the
    module; the fields section 3 gives a user, and those the docstrings
    of [SignUp.post] and [ChangeCreds.put] list. *)
Definition column_of_key (k : string) : option user_column :=
  if String.eqb k "id" then Some col_id
  else if String.eqb k "login" then Some col_login
  else if String.eqb k "email" then Some col_email
  else if String.eqb k "password" then Some col_password
  else if String.eqb k "first_name" then Some col_first_name
  else if String.eqb k "last_name" then Some col_last_name
  else None.

(** Modelled from the spec: the store is not in the module.  A value
    for a text column that must be present. *)
Definition required (v : pyval) : Outcome string :=
  match v with
  | PStr s => Ret s
  | PNone => Raise IntegrityError
  | _ => Raise DataError
  end.

(** Modelled from the spec: the store is not in the module.  A value
    for a text column that may be absent. *)
Definition nullable (v : pyval) : Outcome (option string) :=
  match v with
  | PStr s => Ret (Some s)
  | PNone => Ret None
  | _ => Raise DataError
  end.

Definition obind {A B} (o : Outcome A) (f : A → Outcome B) : Outcome B :=
  match o with
  | Ret a => f a
  | Raise e => Raise e
  end.

(** Modelled from the spec: the store is not in the module.  The row
    with column [c] set to [v]. *)
Definition set_column (c : user_column) (v : pyval) (u : User)
  : Outcome User :=
  match c with
  | col_id => obind (required v) (λ s,
      Ret (mkUser s (u_login u) (u_email u) (u_password u)
                  (u_first_name u) (u_last_name u)))
  | col_login => obind (required v) (λ s,
      Ret (mkUser (u_id u) s (u_email u) (u_password u)
                  (u_first_name u) (u_last_name u)))
  | col_email => obind (required v) (λ s,
      Ret (mkUser (u_id u) (u_login u) s (u_password u)
                  (u_first_name u) (u_last_name u)))
  | col_password => obind (required v) (λ s,
      Ret (mkUser (u_id u) (u_login u) (u_email u) s
                  (u_first_name u) (u_last_name u)))
  | col_first_name => obind (nullable v) (λ o,
      Ret (mkUser (u_id u) (u_login u) (u_email u) (u_password u)
                  o (u_last_name u)))
  | col_last_name => obind (nullable v) (λ o,
      Ret (mkUser (u_id u) (u_login u) (u_email u) (u_password u)
                  (u_first_name u) o))
  end.

(** Modelled from the spec: the store is not in the module.  The value
    given for column [c], NULL when there is none. *)
Fixpoint row_get (c : user_column) (row : list (user_column * pyval))
  : pyval :=
  match row with
  | [] => PNone
  | (c', v) :: row' => if bool_decide (c = c') then v else row_get c row'
  end.

(** Modelled from the spec: the store is not in the module.  The row
    after one UPDATE of the columns listed. *)
Fixpoint set_columns (row : list (user_column * pyval)) (u : User)
  : Outcome User :=
  match row with
  | [] => Ret u
  | (c, v) :: row' => obind (set_column c v u) (set_columns row')
  end.

(** Modelled from the spec: the model [User] is not in the module.  The
    row an INSERT writes: the primary key defaults to a new uuid; login,
    email and password hash must be present (section 3). *)
Definition build_user (default_id : string)
    (row : list (user_column * pyval)) : Outcome User :=
  obind (match row_get col_id row with
         | PNone => Ret default_id
         | v => required v
         end) (λ id,
  obind (required (row_get col_login row)) (λ login,
  obind (required (row_get col_email row)) (λ email,
  obind (required (row_get col_password row)) (λ password,
  obind (nullable (row_get col_first_name row)) (λ first_name,
  obind (nullable (row_get col_last_name row)) (λ last_name,
  Ret (mkUser id login email password first_name last_name))))))).

(** Modelled from the spec: the store is not in the module.  The
    primary key of the row an INSERT writes, as the session knows it for
    the rows of the association. *)
Definition new_id (default_id : string) (row : list (user_column * pyval))
  : string :=
  match row_get col_id row with
  | PStr s => s
  | _ => default_id
  end.

(** Modelled from the spec: the constraints of the users table are not
    in the module.  Section 3: the identity, the login and the email of
    a user are unique. *)
Definition clashes (u : User) (others : list User) : bool :=
  existsb (λ v, String.eqb (u_id v) (u_id u)
                || String.eqb (u_login v) (u_login u)
                || String.eqb (u_email v) (u_email u)) others.

(** Modelled from the spec: the store is not in the module.  Rows of the
    association or of the history refer to the user. *)
Definition referenced (d : DB) (uid : string) : bool :=
  existsb (λ '(u, _), String.eqb u uid) (roles_users d)
  || existsb (λ a, String.eqb (a_user_id a) uid) (authentications d).

Definition with_users (d : DB) (us : list User) : DB :=
  mkDB us (roles d) (roles_users d) (authentications d).

(** Modelled from the spec: the store is not in the module.  One unit of
    work against the tables; a violated constraint is an
    [IntegrityError] and writes nothing (section 3: violated creation
    attempts fail). *)
Definition apply_pending (p : pending) (d : DB) : Outcome DB :=
  match p with
  | InsertUser default_id row =>
      obind (build_user default_id row) (λ u,
        if clashes u (users d) then Raise IntegrityError
        else Ret (with_users d (users d ++ [u])))
  | InsertAuthentication a =>
      match user_by_id d (a_user_id a) with
      | None => Raise IntegrityError
      | Some _ =>
          Ret (mkDB (users d) (roles d) (roles_users d)
                    (authentications d ++ [a]))
      end
  | InsertRoleUser uid rid =>
      match user_by_id d uid, role_by_id d rid with
      | Some _, Some _ =>
          Ret (mkDB (users d) (roles d) (roles_users d ++ [(uid, rid)])
                    (authentications d))
      | _, _ => Raise IntegrityError
      end
  | DeleteRoleUser uid rid =>
      Ret (mkDB (users d) (roles d)
                (List.filter (λ '(u, r),
                   negb (String.eqb u uid && String.eqb r rid))
                   (roles_users d))
                (authentications d))
  | UpdateUser uid row =>
      match user_by_id d uid with
      | None => Ret d
      | Some u =>
          obind (set_columns row u) (λ u',
            let others :=
              List.filter (λ v, negb (String.eqb (u_id v) uid)) (users d) in
            if clashes u' others then Raise IntegrityError
            else if negb (String.eqb (u_id u') uid) && referenced d uid
            then Raise IntegrityError
            else Ret (with_users d
                   (map (λ v, if String.eqb (u_id v) uid then u' else v)
                        (users d))))
      end
  end.

(** Modelled from the spec: the store is not in the module.  The flush
    of a commit: the units of work in the order they were registered;
    the first failure aborts the whole of it. *)
Fixpoint flush (ps : list pending) (d : DB) : Outcome DB :=
  match ps with
  | [] => Ret d
  | p :: ps' => obind (apply_pending p d) (flush ps')
  end.

End Store.

(** ** The session and the datastore, as the views call them *)

(** [db.session.add(x)]: the unit of work waits for the commit. *)
Definition db_session_add (p : pending) : M unit := λ s,
  (Ret tt, mkSt (world s) (session s ++ [p])).

(** [db.session.commit()]: all pending work reaches the tables, or none
    of it does and the error is raised; the session is empty afterwards. *)
Definition db_session_commit : M unit := λ s,
  match Store.flush (session s) (db (world s)) with
  | Ret d' => (Ret tt, mkSt (mkWorld d' (blocklist (world s))) [])
  | Raise e => (Raise e, mkSt (world s) [])
  end.

Definition query {A} (q : DB → A) : M A := λ s, (Ret (q (db (world s))), s).

(** Modelled from the spec: [user_datastore.find_user(login=l)], not in
    the module; the user whose login is the string [l]. *)
Definition find_user (l : pyval) : M (option User) :=
  query (λ d, match l with
              | PStr l => Store.user_by_login d l
              | _ => None
              end).

(** Modelled from the spec: [User.get_by_id(user_id)], not in the
    module. *)
Definition get_by_id (user_id : string) : M (option User) :=
  query (λ d, Store.user_by_id d user_id).

(** Modelled from the spec: [Role.find_by_id(role_id)], not in the
    module. *)
Definition find_by_id (role_id : string) : M (option Role) :=
  query (λ d, Store.role_by_id d role_id).

(** Modelled from the spec: [Authentication.get_login_history(user_id)],
    not in the module; section 4.6, the records of that user in the
    order they were appended. *)
Definition get_login_history (user_id : string) : M (list Authentication) :=
  query (λ d, List.filter (λ a, String.eqb (a_user_id a) user_id)
                          (authentications d)).

(** Modelled from the spec: the attribute [user.roles] of the model, not
    in the module. *)
Definition user_roles (user : User) : M (list Role) :=
  query (λ d, Store.roles_of d (u_id user)).

(** Modelled from the spec: [user_datastore.add_role_to_user] is not in
    the module.  Section 4.5: the role set has no duplicates, and adding
    a role the user holds is not an error and changes nothing. *)
Definition add_role_to_user (user : User) (role : Role) : M bool :=
  held <- query (λ d, Store.has_role d (u_id user) (r_id role)) ;;
  if held then pure false
  else db_session_add (InsertRoleUser (u_id user) (r_id role)) ;;; pure true.

(** Modelled from the spec: [user_datastore.remove_role_from_user] is
    not in the module.  Section 4.5: removing a role the user does not
    hold is not an error and changes nothing. *)
Definition remove_role_from_user (user : User) (role : Role) : M bool :=
  held <- query (λ d, Store.has_role d (u_id user) (r_id role)) ;;
  if held
  then db_session_add (DeleteRoleUser (u_id user) (r_id role)) ;;; pure true
  else pure false.

(** Modelled from the spec: the datastore is not in the module.  The
    [roles] argument of [create_user]: a list of role ids (the docstring
    of [SignUp.post]). *)
Fixpoint role_ids (l : list pyval) : Outcome (list string) :=
  match l with
  | [] => Ret []
  | PStr r :: l' => Store.obind (role_ids l') (λ rs, Ret (r :: rs))
  | _ :: _ => Raise TypeError
  end.

(** Modelled from the spec: the model [User] is not in the module.  The
    keyword arguments of its constructor: the columns; any other keyword
    is a [TypeError]. *)
Fixpoint kwargs_row (d : list (string * pyval))
  : Outcome (list (user_column * pyval)) :=
  match d with
  | [] => Ret []
  | (k, v) :: d' =>
      if String.eqb k "roles" then kwargs_row d'
      else match Store.column_of_key k with
           | None => Raise TypeError
           | Some c => Store.obind (kwargs_row d') (λ r, Ret ((c, v) :: r))
           end
  end.

(** Modelled from the spec: the datastore is not in the module.  The
    roles a body lists, none when it has no [roles]. *)
Definition listed_roles (d : list (string * pyval)) : Outcome (list string) :=
  match dict_get "roles" d with
  | None => Ret []
  | Some (PList l) => role_ids l
  | Some _ => Raise TypeError
  end.

(** Modelled from the spec: [user_datastore.create_user], called with
    the body as keyword arguments, is not in the module.  It registers
    the new user, and the association with each role listed, with the
    session. *)
Definition create_user (default_id : string) (data : list (string * pyval))
  : M unit :=
  rids <- lift (listed_roles data) ;;
  row <- lift (kwargs_row data) ;;
  db_session_add (InsertUser default_id row) ;;;
  foldr (λ rid k,
           db_session_add (InsertRoleUser (Store.new_id default_id row) rid)
           ;;; k)
        (pure tt) rids.

(** ** The block-list *)

(** [jwt_redis_blocklist.set(key, value, ex=ttl)] at time [t]. *)
Definition redis_set (key value : string) (ttl t : Z) : M unit := λ s,
  (Ret tt,
   mkSt (mkWorld (db (world s))
                 (<[key := mkBlockEntry value ttl t]> (blocklist (world s))))
        (session s)).

(** Modelled from the spec: the block-list callback of the application
    is not in the module.  Section 4.4, [is_revoked]: the token id has an
    entry that has not yet expired. *)
Definition is_revoked (w : World) (token_id : string) (t : Z) : bool :=
  match blocklist w !! token_id with
  | Some e => bool_decide (t < be_set_at e + be_ttl e)
  | None => false
  end.

(** ** The views *)

Section Views.

Context (X : Externals).

(** *** flask_jwt_extended *)

(** [create_access_token(identity, fresh=False)]: the keyword [fresh]
    defaults to [False] when the call leaves it out.  [token_id] is the
    random id the library draws, [t] the time of the call. *)
Definition create_access_token (t : Z) (token_id : string)
    (identity : string) (fresh_kw : option bool) : Token :=
  mkToken identity access token_id t (t + JWT_ACCESS_TOKEN_EXPIRES)
          (default false fresh_kw) (JWT_SECRET_KEY X).

(** [create_refresh_token(identity)] *)
Definition create_refresh_token (t : Z) (token_id : string)
    (identity : string) : Token :=
  mkToken identity refresh token_id t (t + JWT_REFRESH_TOKEN_EXPIRES X)
          false (JWT_SECRET_KEY X).

(** Modelled from the spec: the validator installed by the decorator
    [jwt_required] and its block-list callback are configured outside the
    module.  Section 4.3, in this order: signature, expiry, type,
    block-list. *)
Definition validate (w : World) (t : Z) (token : Token)
    (required_type : token_type) : Outcome Token :=
  if negb (String.eqb (signed_with token) (JWT_SECRET_KEY X))
  then Raise (JWTRejected Malformed)
  else if bool_decide (exp token ≤ t) then Raise (JWTRejected Expired)
  else if negb (bool_decide (type token = required_type))
  then Raise (JWTRejected WrongScope)
  else if is_revoked w (jti token) t then Raise (JWTRejected Revoked)
  else Ret token.

(** Modelled from the spec: the decorator [@jwt_required(refresh=...)]
    is configured outside the module.  It runs the validator of section
    4.3 before the body of the view and hands it the verified token of
    the request; a request without a token is rejected. *)
Definition jwt_required (refresh_kw : bool) (req : Request) : M Token :=
  λ s,
  match authorization req with
  | None => (Raise (JWTRejected Missing), s)
  | Some token =>
      (validate (world s) (now req) token
                (if refresh_kw then refresh else access), s)
  end.

(** *** Serialisers of the models and of the schema *)

(** Modelled from the spec: [Authentication.as_dict] is not in the
    module; the fields section 3 gives a record. *)
Definition as_dict (a : Authentication) : pyval :=
  PDict [("user_id", PStr (a_user_id a));
         ("user_agent", PStr (a_user_agent a));
         ("time", PInt (a_time a))].

(** Modelled from the spec: [Role.json] is not in the module; the
    fields section 3 gives a role. *)
Definition role_json (r : Role) : pyval :=
  PDict [("id", PStr (r_id r)); ("name", PStr (r_name r))].

Definition opt_str (o : option string) : pyval :=
  match o with Some s => PStr s | None => PNone end.

(** Modelled from the spec: [UserSchema] is not in the module; the
    fields section 3 gives a user, the password hash left out. *)
Definition user_schema_dump (u : User) : pyval :=
  PDict [("id", PStr (u_id u)); ("login", PStr (u_login u));
         ("email", PStr (u_email u));
         ("first_name", opt_str (u_first_name u));
         ("last_name", opt_str (u_last_name u))].

(** *** SignUp.post, lines 78-88 *)
Definition SignUp_post (req : Request) : M Response :=
  try_except
    (data <- global "request" (pure (json req)) ;;
     if negb (truthy data)
     then pure (PDict [("error", PStr "Credentials required")], 400)
     else
       hash_ <- global "get_hash"
                  (password <- subscript data "password" ;;
                   lift (get_hash X password)) ;;
       data <- setitem data "password" (PStr hash_) ;;
       global "user_datastore"
         (match data with
          | PDict kwargs => create_user (fst (uuid4 req)) kwargs
          | _ => raise TypeError
          end) ;;;
       global "db" db_session_commit ;;;
       login <- subscript data "login" ;;
       pure (PDict [("user", login)], 201))
    (global "IntegrityError" (pure cls_IntegrityError))
    (pure (PDict [("error", PStr "Login or email already exist")], 400)).

(** *** Login.post, lines 128-142 *)
Definition Login_post (req : Request) : M Response :=
  data <- global "request" (pure (json req)) ;;
  user_agent <- global "str" (global "request" (pure (user_agent req))) ;;
  if negb (truthy data)
  then pure (PDict [("error", PStr "Credentials required")], 400)
  else
    user <- global "user_datastore"
              (login <- subscript data "login" ;; find_user login) ;;
    (* [user and check_password(...)]: the right operand is evaluated
       only for a user that was found *)
    granted <- match user with
               | None => pure None
               | Some u =>
                   ok <- global "check_password"
                           (password <- subscript data "password" ;;
                            lift (check_password X password (u_password u))) ;;
                   pure (if ok then Some u else None)
               end ;;
    match granted with
    | Some u =>
        access_token <- global "create_access_token"
          (pure (create_access_token (now req) (fst (uuid4 req)) (u_id u)
                                     None)) ;;
        refresh_token <- global "create_refresh_token"
          (pure (create_refresh_token (now req) (snd (uuid4 req))
                                      (u_id u))) ;;
        auth_hist <- global "Authentication"
          (pure (mkAuthentication (u_id u) user_agent (now req))) ;;
        global "db" (db_session_add (InsertAuthentication auth_hist)) ;;;
        global "db" db_session_commit ;;;
        pure (PDict [("access_token", PJwt access_token);
                     ("refresh_token", PJwt refresh_token)], 200)
    | None => pure (PDict [("error", PStr "Invalid credentials")], 401)
    end.

(** *** RefreshTokens.post, lines 181-190 *)

(** The body of the [try], lines 182-188. *)
Definition RefreshTokens_post_try (req : Request) (jwt : Token)
  : M Response :=
  identity <- global "get_jwt_identity" (pure (sub jwt)) ;;
  access_token <- global "create_access_token"
    (pure (create_access_token (now req) (fst (uuid4 req)) identity
                               (Some false))) ;;
  refresh_token <- global "create_refresh_token"
    (pure (create_refresh_token (now req) (snd (uuid4 req)) identity)) ;;
  pure (PDict [("access_token", PJwt access_token);
               ("refresh_token", PJwt refresh_token)], 200).

(** The expression of line 189, [jwt.exceptions.DecodeError]. *)
Definition RefreshTokens_post_except : M exc_class :=
  global "jwt" (pure cls_DecodeError).

(** Line 190. *)
Definition RefreshTokens_post_handler : M Response :=
  pure (PDict [("error", PStr "Token is invalid")], 401).

Definition RefreshTokens_post (req : Request) : M Response :=
  jwt <- jwt_required true req ;;
  try_except (RefreshTokens_post_try req jwt)
             RefreshTokens_post_except
             RefreshTokens_post_handler.

(** *** Logout.delete, lines 199-204 *)

(** Line 201: the entry written for a token id. *)
Definition Logout_delete_set (req : Request) (token_id : string) : M unit :=
  global "jwt_redis_blocklist"
    (ex <- global "ACCESS_EXPIRES" (pure ACCESS_EXPIRES) ;;
     redis_set token_id "" ex (now req)).

Definition Logout_delete (req : Request) : M Response :=
  jwt <- jwt_required false req ;;
  token_id <- global "get_jwt" (pure (jti jwt)) ;;
  Logout_delete_set req token_id ;;;
  pure (PDict [("msg", PStr "User's token revoked")], 200).

(** *** ChangeCreds.put, lines 263-280 *)

(** The session learns that column [c] of the loaded user was assigned. *)
Fixpoint mark_dirty (uid : string) (c : user_column) (v : pyval)
    (ps : list pending) : list pending :=
  match ps with
  | [] => [UpdateUser uid [(c, v)]]
  | UpdateUser uid' row :: ps' =>
      if String.eqb uid uid' then UpdateUser uid' (row ++ [(c, v)]) :: ps'
      else UpdateUser uid' row :: mark_dirty uid c v ps'
  | p :: ps' => p :: mark_dirty uid c v ps'
  end.

(** [setattr(user, key, value)] on the user loaded as [uid]: a column is
    marked for update, [roles] replaces the collection, and any other
    name is a plain attribute of the object. *)
Definition setattr (uid : string) (user : User) (key : string)
    (value : pyval) : M User :=
  match Store.column_of_key key with
  | Some c =>
      λ s, (Ret (match Store.set_column c value user with
                 | Ret user' => user'
                 | Raise _ => user
                 end),
            mkSt (world s) (mark_dirty uid c value (session s)))
  | None =>
      if String.eqb key "roles" then
        match value with
        | PList [] =>
            held <- query (λ d, Store.roles_of d uid) ;;
            foldr (λ r k, db_session_add (DeleteRoleUser uid (r_id r)) ;;; k)
                  (pure user) held
        | PList _ => raise AttributeError
        | _ => raise TypeError
        end
      else pure user
  end.

(** The loop of lines 272-276 over [data.items()]. *)
Fixpoint ChangeCreds_put_loop (data : pyval) (uid : string)
    (items : list (string * pyval)) (user : User) : M User :=
  match items with
  | [] => pure user
  | (key, value) :: items' =>
      value <- (if String.eqb key "password"
                then hash_ <- global "get_hash"
                                (password <- subscript data "password" ;;
                                 lift (get_hash X password)) ;;
                     pure (PStr hash_)
                else pure value) ;;
      user <- global "setattr" (setattr uid user key value) ;;
      ChangeCreds_put_loop data uid items' user
  end.

Definition ChangeCreds_put (user_id : string) (req : Request) : M Response :=
  _jwt <- jwt_required false req ;;
  valid <- global "is_uuid" (pure (is_uuid X user_id)) ;;
  if negb valid
  then pure (PDict [("error", PStr "Invalid UUID format")], 400)
  else
    try_except
      (data <- global "request" (pure (json req)) ;;
       if negb (truthy data)
       then pure (PDict [("msg", PStr "Empty data")], 400)
       else
         user <- global "User" (get_by_id user_id) ;;
         match user with
         | None =>
             pure (PDict [("error", PStr "No user with specified id")], 400)
         | Some user =>
             items <- match data with
                      | PDict d => pure d
                      | _ => raise AttributeError
                      end ;;
             user <- ChangeCreds_put_loop data (u_id user) items user ;;
             global "db" db_session_commit ;;;
             result <- global "user_schema" (pure (user_schema_dump user)) ;;
             pure (PDict [("msg", PStr "User updated"); ("result", result)],
                   200)
         end)
      (global "IntegrityError" (pure cls_IntegrityError))
      (pure (PDict [("error", PStr "Login or email already exist")], 400)).

(** *** LoginHistory.get, lines 317-320 *)
Definition LoginHistory_get (user_id : string) (req : Request)
  : M Response :=
  _jwt <- jwt_required false req ;;
  valid <- global "is_uuid" (pure (is_uuid X user_id)) ;;
  if negb valid
  then pure (PDict [("error", PStr "Invalid UUID format")], 400)
  else
    history <- global "Authentication" (get_login_history user_id) ;;
    pure (PDict [("result", PList (map as_dict history))], 200).

(** *** UserRoles.get, lines 358-363 *)
Definition UserRoles_get (user_id : string) (req : Request) : M Response :=
  _jwt <- jwt_required false req ;;
  valid <- global "is_uuid" (pure (is_uuid X user_id)) ;;
  if negb valid
  then pure (PDict [("error", PStr "Invalid UUID format")], 400)
  else
    user <- global "User" (get_by_id user_id) ;;
    match user with
    | None => pure (PDict [("error", PStr "No user with specified id")], 400)
    | Some user =>
        held <- user_roles user ;;
        pure (PDict [("result", PList (map role_json held))], 200)
    end.

(** The test of lines 404 and 451, [is_uuid(user_id) and is_uuid(role_id)]. *)
Definition both_uuid (user_id role_id : string) : M bool :=
  valid <- global "is_uuid" (pure (is_uuid X user_id)) ;;
  if valid then global "is_uuid" (pure (is_uuid X role_id)) else pure false.

(** *** ChangeUserRoles.post, lines 404-414 *)
Definition ChangeUserRoles_post (user_id role_id : string) (req : Request)
  : M Response :=
  _jwt <- jwt_required false req ;;
  valid <- both_uuid user_id role_id ;;
  if negb valid
  then pure (PDict [("error", PStr "Invalid UUID format")], 400)
  else
    user <- global "User" (get_by_id user_id) ;;
    match user with
    | None => pure (PDict [("error", PStr "No user with specified id")], 400)
    | Some user =>
        role <- global "Role" (find_by_id role_id) ;;
        match role with
        | None =>
            pure (PDict [("error", PStr "No role with specified id")], 400)
        | Some role =>
            global "user_datastore" (add_role_to_user user role) ;;;
            global "db" db_session_commit ;;;
            pure (PDict [("msg", PStr "Success")], 200)
        end
    end.

(** *** ChangeUserRoles.delete, lines 451-461 *)
Definition ChangeUserRoles_delete (user_id role_id : string) (req : Request)
  : M Response :=
  _jwt <- jwt_required false req ;;
  valid <- both_uuid user_id role_id ;;
  if negb valid
  then pure (PDict [("error", PStr "Invalid UUID format")], 400)
  else
    user <- global "User" (get_by_id user_id) ;;
    match user with
    | None => pure (PDict [("error", PStr "No user with specified id")], 400)
    | Some user =>
        role <- global "Role" (find_by_id role_id) ;;
        match role with
        | None =>
            pure (PDict [("error", PStr "No role with specified id")], 400)
        | Some role =>
            global "user_datastore" (remove_role_from_user user role) ;;;
            global "db" db_session_commit ;;;
            pure (PDict [("msg", PStr "Success")], 200)
        end
    end.

End Views.

(** ** A concrete deployment, for the scenarios *)

Module Demo.

Definition is_hex (a : Ascii.ascii) : bool :=
  let n := Ascii.nat_of_ascii a in
  ((48 <=? n) && (n <=? 57) || (97 <=? n) && (n <=? 102))%nat.

(** The canonical form 8-4-4-4-12 of a UUID. *)
Fixpoint uuid_shape (pos : nat) (s : string) : bool :=
  match s with
  | EmptyString => Nat.eqb pos 36
  | String a s' =>
      (if bool_decide (pos ∈ [8; 13; 18; 23]%nat)
       then Ascii.eqb a "-" else is_hex a)
      && uuid_shape (S pos) s'
  end.

Definition hash (v : pyval) : Outcome string :=
  match v with
  | PStr s => Ret (String.append "kdf$" s)
  | _ => Raise TypeError
  end.

Definition check (v : pyval) (h : string) : Outcome bool :=
  match v with
  | PStr s => Ret (String.eqb (String.append "kdf$" s) h)
  | _ => Raise TypeError
  end.

Definition X : Externals :=
  mkExternals hash check (uuid_shape 0) "server-secret" 2592000.

Definition alice_id : string := "00000000-0000-4000-8000-00000000000a".
Definition bob_id : string := "00000000-0000-4000-8000-00000000000b".
Definition admin_id : string := "00000000-0000-4000-8000-0000000000ad".
Definition nobody_id : string := "00000000-0000-4000-8000-0000000000ff".

Definition empty_db : DB := mkDB [] [] [] [].

Definition empty : World := mkWorld empty_db ∅.

Definition alice : User :=
  mkUser alice_id "alice" "a@x.com" "kdf$pw1" None None.

(** A world with the user alice and the role admin, not yet assigned. *)
Definition w0 : World :=
  mkWorld (mkDB [alice] [mkRole admin_id "admin"] [] []) ∅.

Definition request (body : pyval) (auth : option Token) (t : Z)
    (id1 id2 : string) : Request :=
  mkRequest body "curl/8.0" auth t (id1, id2).

Definition credentials (login password : string) : pyval :=
  PDict [("login", PStr login); ("password", PStr password)].

Definition signup (login password email : string) : pyval :=
  PDict [("login", PStr login); ("password", PStr password);
         ("email", PStr email)].

(** The tokens a login of alice at time 0 issues. *)
Definition alice_access : Token :=
  mkToken alice_id access "jti-a1" 0 3600 false "server-secret".
Definition alice_refresh : Token :=
  mkToken alice_id refresh "jti-r1" 0 2592000 false "server-secret".

Definition bob : User := mkUser bob_id "bob" "b@x.com" "kdf$pw2" None None.

(** A world with the users alice and bob. *)
Definition w2 : World :=
  mkWorld (mkDB [alice; bob] [mkRole admin_id "admin"] [] []) ∅.

(** The world after that login: the record of it is in the history. *)
Definition w1 : World :=
  mkWorld (mkDB [alice] [mkRole admin_id "admin"] []
                [mkAuthentication alice_id "curl/8.0" 0]) ∅.

Definition login_alice : Request :=
  request (credentials "alice" "pw1") None 0 "jti-a1" "jti-r1".

(** A refresh ten seconds after the login. *)
Definition refresh_alice : Request :=
  request PNone (Some alice_refresh) 10 "jti-a2" "jti-r2".

(** A logout when the access token has a hundred seconds left. *)
Definition logout_alice : Request :=
  request PNone (Some alice_access) 3500 "" "".

End Demo.

(** ** What the scenarios observe *)

(** The access token a response carries, if any. *)
Definition access_token_of (o : Outcome Response) : option Token :=
  match o with
  | Ret (PDict d, _) =>
      match dict_get "access_token" d with
      | Some (PJwt t) => Some t
      | _ => None
      end
  | _ => None
  end.

(** The response is a pair of tokens with status 200. *)
Definition returns_pair (o : Outcome Response) : Prop :=
  ∃ a r, o = Ret (PDict [("access_token", PJwt a);
                         ("refresh_token", PJwt r)], 200).

(** One authentication record was appended between [w] and [w']. *)
Definition login_recorded (w w' : World) : Prop :=
  ∃ a : Authentication,
    authentications (db w') = (authentications (db w) ++ [a])%list.

(** The time a token has left at [t]. *)
Definition remaining (token : Token) (t : Z) : Z := exp token - t.

(** ** The operations that take an identifier from the path *)

Inductive operation :=
  | op_change_creds (user_id : string)
  | op_login_history (user_id : string)
  | op_user_roles (user_id : string)
  | op_add_role (user_id role_id : string)
  | op_remove_role (user_id role_id : string).

Definition view_of (X : Externals) (op : operation) : Request → M Response :=
  match op with
  | op_change_creds user_id => ChangeCreds_put X user_id
  | op_login_history user_id => LoginHistory_get X user_id
  | op_user_roles user_id => UserRoles_get X user_id
  | op_add_role user_id role_id => ChangeUserRoles_post X user_id role_id
  | op_remove_role user_id role_id => ChangeUserRoles_delete X user_id role_id
  end.

Definition user_id_of (op : operation) : string :=
  match op with
  | op_change_creds u | op_login_history u | op_user_roles u
  | op_add_role u _ | op_remove_role u _ => u
  end.

Definition role_id_of (op : operation) : option string :=
  match op with
  | op_add_role _ r | op_remove_role _ r => Some r
  | _ => None
  end.

(** All identifiers of the operation pass [is_uuid]. *)
Definition well_formed (X : Externals) (op : operation) : bool :=
  is_uuid X (user_id_of op)
  && match role_id_of op with
     | Some r => is_uuid X r
     | None => true
     end.

(** The views that look the user up before anything else is read. *)
Definition looks_user_up (op : operation) (req : Request) : bool :=
  match op with
  | op_login_history _ => false
  | op_change_creds _ => truthy (json req)
  | _ => true
  end.

Definition invalid_identifier : Response :=
  (PDict [("error", PStr "Invalid UUID format")], 400).

Definition user_not_found : Response :=
  (PDict [("error", PStr "No user with specified id")], 400).

Definition role_not_found : Response :=
  (PDict [("error", PStr "No role with specified id")], 400).

(** The request carries an access token that the validator accepts. *)
Definition authenticated (X : Externals) (req : Request) (w : World) : Prop :=
  ∃ token, authorization req = Some token
           ∧ validate X w (now req) token access = Ret token.

(** ** The row a sign-up payload describes *)

(** The user that [SignUp.post] asks the store to insert for the body
    [d]: the password hashed, then the columns read from the keywords.
    A payload is valid when this is a row. *)
Definition signup_user (X : Externals) (default_id : string)
    (d : list (string * pyval)) : Outcome User :=
  match dict_get "password" d with
  | None => Raise (KeyError "password")
  | Some password =>
      Store.obind (get_hash X password) (λ hash_,
        let kwargs := dict_set "password" (PStr hash_) d in
        Store.obind (listed_roles kwargs) (λ _,
          Store.obind (kwargs_row kwargs) (Store.build_user default_id)))
  end.

Definition duplicate_identity : Response :=
  (PDict [("error", PStr "Login or email already exist")], 400).

Definition success : Response := (PDict [("msg", PStr "Success")], 200).

(** The user and the role that the identifiers of a request name. *)
Definition found (w : World) (user_id role_id : string) (user : User)
    (role : Role) : Prop :=
  Store.user_by_id (db w) user_id = Some user
  ∧ Store.role_by_id (db w) role_id = Some role.

(** ** The endpoints of the module, and what none of them undoes *)

Inductive endpoint :=
  | ep_signup
  | ep_login
  | ep_refresh
  | ep_logout
  | ep_path (op : operation).

Definition endpoint_view (X : Externals) (ep : endpoint)
  : Request → M Response :=
  match ep with
  | ep_signup => SignUp_post X
  | ep_login => Login_post X
  | ep_refresh => RefreshTokens_post X
  | ep_logout => Logout_delete X
  | ep_path op => view_of X op
  end.

(** [w'] has the block-list and the roles of [w], every record of its
    history in the same order, and at least as many users. *)
Definition extends (w w' : World) : Prop :=
  blocklist w' = blocklist w
  ∧ roles (db w') = roles (db w)
  ∧ authentications (db w) `prefix_of` authentications (db w')
  ∧ (length (users (db w)) ≤ length (users (db w')))%nat.

(** A computation whose every run ends in a world that extends the one
    it started in. *)
Definition keeps {A} (m : M A) : Prop :=
  ∀ s, extends (world s) (world (snd (m s))).

(** The request with another bearer token. *)
Definition with_authorization (req : Request) (token : option Token)
  : Request :=
  mkRequest (json req) (user_agent req) token (now req) (uuid4 req).

(** ** What a credential update assigns *)

(** The columns that the loop of [ChangeCreds.put] assigns for the items
    of the body [data], in their order: the value of 'password' is
    replaced by its hash, and a name that is no column assigns none. *)
Fixpoint update_row (X : Externals) (data items : list (string * pyval))
  : Outcome (list (user_column * pyval)) :=
  match items with
  | [] => Ret []
  | (key, value) :: items' =>
      Store.obind
        (if String.eqb key "password"
         then match dict_get "password" data with
              | Some password =>
                  Store.obind (get_hash X password) (λ hash_,
                    Ret (PStr hash_))
              | None => Raise (KeyError "password")
              end
         else Ret value) (λ v,
      Store.obind (update_row X data items') (λ row,
        Ret (match Store.column_of_key key with
             | Some c => (c, v) :: row
             | None => row
             end)))
  end.

(** The loaded user after the assignments of [row], as [setattr] leaves
    the object. *)
Fixpoint assigned (row : list (user_column * pyval)) (u : User) : User :=
  match row with
  | [] => u
  | (c, v) :: row' =>
      assigned row' (match Store.set_column c v u with
                     | Ret u' => u'
                     | Raise _ => u
                     end)
  end.

(** The session of a request that has assigned [row] on the user loaded
    as [uid], and nothing else. *)
Definition dirty (uid : string) (row : list (user_column * pyval))
  : list pending :=
  match row with
  | [] => []
  | _ => [UpdateUser uid row]
  end.

(** * Properties *)

(** ** Name resolution *)

Ltac names :=
  unfold global;
  repeat match goal with
         | |- context [bound ?n] =>
             let b := eval vm_compute in (bound n) in
             change (bound n) with b
         end;
  cbv iota.

Lemma get_jwt_unbound : bound "get_jwt" = false.
Proof. reflexivity. Qed.

Lemma jwt_unbound : bound "jwt" = false.
Proof. reflexivity. Qed.

(** ** Token refresh *)

Section Refresh.

Context (X : Externals).

(** The body of the [try] cannot raise, and writes nothing. *)
Lemma refresh_try_returns req jwt s :
  RefreshTokens_post_try X req jwt s =
  (Ret (PDict [("access_token",
                PJwt (create_access_token X (now req) (fst (uuid4 req))
                                          (sub jwt) (Some false)));
               ("refresh_token",
                PJwt (create_refresh_token X (now req) (snd (uuid4 req))
                                           (sub jwt)))], 200), s).
Proof. reflexivity. Qed.

Lemma refresh_accepted req jwt s :
  jwt_required X true req s = (Ret jwt, s) →
  RefreshTokens_post X req s = RefreshTokens_post_try X req jwt s.
Proof.
  intros H. unfold RefreshTokens_post, bind, try_except.
  rewrite H, refresh_try_returns. reflexivity.
Qed.

Lemma jwt_required_state refresh_kw req s :
  snd (jwt_required X refresh_kw req s) = s.
Proof. unfold jwt_required. destruct (authorization req); reflexivity. Qed.

(** Refresh never writes to the database or to the block-list. *)
Lemma refresh_writes_nothing req s :
  snd (RefreshTokens_post X req s) = s.
Proof.
  unfold RefreshTokens_post, bind.
  pose proof (jwt_required_state true req s) as Hs.
  destruct (jwt_required X true req s) as [[jwt|e] s']; simpl in Hs; subst s'.
  - unfold try_except. rewrite refresh_try_returns. reflexivity.
  - reflexivity.
Qed.

End Refresh.

(** C10.  When the body of the [try] of [RefreshTokens.post] raises, whatever
    the exception, evaluating the [except] clause raises [NameError] for
    the name [jwt], which the module never binds, so the response
    'Token is invalid' with status 401 is not returned; and the view as
    written returns that response for no request and no state. *)
Theorem refresh_except_clause_raises_NameError
    (X : Externals) (body : M Response) (s s' : St) (e : exn) :
  body s = (Raise e, s') →
  try_except body RefreshTokens_post_except RefreshTokens_post_handler s
    = (Raise (NameError "jwt"), s')
  ∧ ∀ req s0,
      fst (RefreshTokens_post X req s0)
      ≠ Ret (PDict [("error", PStr "Token is invalid")], 401).
Proof.
  intros Hbody. split.
  - unfold try_except. rewrite Hbody. reflexivity.
  - intros req s0. unfold RefreshTokens_post, bind.
    destruct (jwt_required X true req s0) as [[jwt|e0] s1].
    + unfold try_except. rewrite refresh_try_returns. simpl. congruence.
    + simpl. congruence.
Qed.

Lemma refresh_except_clause_raises_NameError_witness :
  try_except (raise DecodeError)
             RefreshTokens_post_except RefreshTokens_post_handler
             (mkSt Demo.w0 [])
  = (Raise (NameError "jwt"), mkSt Demo.w0 []).
Proof.
  apply (refresh_except_clause_raises_NameError Demo.X (raise DecodeError)
           (mkSt Demo.w0 []) (mkSt Demo.w0 []) DecodeError).
  reflexivity.
Defined.

(** C1.  Login of alice, then a refresh with her refresh token: the refresh
    succeeds and returns a new pair, the world is the one before it, the
    block-list holds neither the old refresh-token id nor the old
    access-token id, and the validator accepts both old tokens afterwards. *)
Theorem refresh_leaves_replaced_tokens_valid :
  run (Login_post Demo.X Demo.login_alice) Demo.w0
    = (Ret (PDict [("access_token", PJwt Demo.alice_access);
                   ("refresh_token", PJwt Demo.alice_refresh)], 200),
       Demo.w1)
  ∧ (∃ a r,
       run (RefreshTokens_post Demo.X Demo.refresh_alice) Demo.w1
         = (Ret (PDict [("access_token", PJwt a);
                        ("refresh_token", PJwt r)], 200), Demo.w1)
       ∧ jti a ≠ jti Demo.alice_access ∧ jti r ≠ jti Demo.alice_refresh)
  ∧ blocklist Demo.w1 !! jti Demo.alice_refresh = None
  ∧ blocklist Demo.w1 !! jti Demo.alice_access = None
  ∧ validate Demo.X Demo.w1 20 Demo.alice_refresh refresh
      = Ret Demo.alice_refresh
  ∧ validate Demo.X Demo.w1 20 Demo.alice_access access
      = Ret Demo.alice_access.
Proof.
  split; [vm_compute; reflexivity|].
  split.
  { eexists _, _. split; [vm_compute; reflexivity|].
    split; vm_compute; congruence. }
  repeat split; vm_compute; reflexivity.
Qed.

(** Whatever the request, the validator answers after a refresh as it
    did before it. *)
Lemma refresh_does_not_revoke (X : Externals) req w t token required_type :
  validate X (snd (run (RefreshTokens_post X req) w)) t token required_type
  = validate X w t token required_type.
Proof.
  unfold run.
  pose proof (refresh_writes_nothing X req (mkSt w [])) as H.
  destruct (RefreshTokens_post X req (mkSt w [])) as [o s]; simpl in *.
  subst s. reflexivity.
Qed.

(** ** Logout *)

Section LogoutView.

Context (X : Externals).

(** An authenticated logout stops at line 200: the name [get_jwt] is not
    bound in the module. *)
Lemma logout_raises_NameError req jwt s :
  jwt_required X false req s = (Ret jwt, s) →
  Logout_delete X req s = (Raise (NameError "get_jwt"), s).
Proof.
  intros H. unfold Logout_delete, bind. rewrite H. reflexivity.
Qed.

(** Whether authenticated or not, logout leaves the state as it was. *)
Lemma logout_writes_nothing req s :
  snd (Logout_delete X req s) = s.
Proof.
  unfold Logout_delete, bind.
  pose proof (jwt_required_state X false req s) as Hs.
  destruct (jwt_required X false req s) as [[jwt|e] s']; simpl in Hs; subst s'.
  - reflexivity.
  - reflexivity.
Qed.

(** The statement of line 201 writes the entry with the constant. *)
Lemma logout_set_entry req token_id s :
  Logout_delete_set req token_id s =
  (Ret tt,
   mkSt (mkWorld (db (world s))
           (<[token_id := mkBlockEntry "" ACCESS_EXPIRES (now req)]>
              (blocklist (world s))))
        (session s)).
Proof. reflexivity. Qed.

End LogoutView.

(** C2.  Alice, logged in, sends a logout with her access token: the view
    raises [NameError] for [get_jwt] instead of answering, the world is
    unchanged, the block-list has no entry for the token id, and the
    validator still accepts the token. *)
Theorem logout_does_not_revoke :
  validate Demo.X Demo.w1 (now Demo.logout_alice) Demo.alice_access access
    = Ret Demo.alice_access
  ∧ run (Logout_delete Demo.X Demo.logout_alice) Demo.w1
    = (Raise (NameError "get_jwt"), Demo.w1)
  ∧ blocklist Demo.w1 !! jti Demo.alice_access = None
  ∧ validate Demo.X Demo.w1 (now Demo.logout_alice + 1)
             Demo.alice_access access
    = Ret Demo.alice_access.
Proof. repeat split; vm_compute; reflexivity. Qed.

(** C5, as stated, fails.  Alice logs out a hundred seconds before her
    access token expires: the entry line 201 writes for its id has a
    time-to-live of 3600 seconds, not of 100; and the view as a whole
    leaves no entry for that id at all. *)
Lemma logout_ttl_is_not_remaining_validity :
  remaining Demo.alice_access (now Demo.logout_alice) = 100
  ∧ (∃ e,
       blocklist
         (snd (run (Logout_delete_set Demo.logout_alice
                                      (jti Demo.alice_access)) Demo.w1))
         !! jti Demo.alice_access = Some e
       ∧ be_ttl e = 3600
       ∧ be_ttl e ≠ remaining Demo.alice_access (now Demo.logout_alice))
  ∧ blocklist (snd (run (Logout_delete Demo.X Demo.logout_alice) Demo.w1))
      !! jti Demo.alice_access = None.
Proof.
  split; [reflexivity|]. split.
  - eexists. split; [vm_compute; reflexivity|].
    split; vm_compute; congruence.
  - vm_compute. reflexivity.
Qed.

(** C5, amended.  The entry that line 201 of [Logout.delete] writes for
    a token id has the constant [ACCESS_EXPIRES], one hour, as its
    time-to-live, whatever the token and the time: the id counts as
    revoked until one hour after the statement ran. *)
Theorem logout_ttl_is_ACCESS_EXPIRES (req : Request) (token_id : string)
    (w : World) :
  let w' := snd (run (Logout_delete_set req token_id) w) in
  blocklist w' !! token_id = Some (mkBlockEntry "" ACCESS_EXPIRES (now req))
  ∧ ACCESS_EXPIRES = 3600
  ∧ ∀ t, is_revoked w' token_id t = bool_decide (t < now req + 3600).
Proof.
  unfold run. rewrite logout_set_entry. simpl.
  split; [apply lookup_insert_eq|]. split; [reflexivity|].
  intros t. unfold is_revoked. simpl. rewrite lookup_insert_eq. reflexivity.
Qed.

(** ** Login *)

Lemma truthy_dict d k v : dict_get k d = Some v → truthy (PDict d) = true.
Proof. destruct d; [discriminate|reflexivity]. Qed.

Lemma find_other {A} (f g : A → bool) l x :
  List.find f l = Some x → g x = true → ∃ y, List.find g l = Some y.
Proof.
  intros Hf Hg. apply List.find_some in Hf as [Hin _].
  destruct (List.find g l) as [y|] eqn:E; [eauto|].
  pose proof (List.find_none _ _ E x Hin). congruence.
Qed.

Lemma found_by_login_has_id d l u :
  Store.user_by_login d l = Some u →
  ∃ v, Store.user_by_id d (u_id u) = Some v.
Proof.
  intros H. apply (find_other _ _ _ _ H). apply String.eqb_refl.
Qed.

Lemma not_pair_raise e : ¬ returns_pair (Raise e).
Proof. intros (a & r & H). discriminate. Qed.

Lemma not_pair_status b z : z ≠ 200 → ¬ returns_pair (Ret (b, z)).
Proof. intros Hz (a & r & H). congruence. Qed.

Ltac no_pair :=
  right; split;
  [ first [apply not_pair_raise | apply not_pair_status; lia]
  | split; reflexivity ].

(** The two ways a login ends: a pair of tokens for a stored user, with
    the record of the login committed; or no pair, and nothing written. *)
Lemma login_cases (X : Externals) (req : Request) (w : World) :
  (∃ u,
      u ∈ users (db w)
      ∧ run (Login_post X req) w
        = (Ret (PDict [("access_token",
                        PJwt (create_access_token X (now req)
                                (fst (uuid4 req)) (u_id u) None));
                       ("refresh_token",
                        PJwt (create_refresh_token X (now req)
                                (snd (uuid4 req)) (u_id u)))], 200),
           mkWorld (mkDB (users (db w)) (roles (db w)) (roles_users (db w))
                         (authentications (db w)
                          ++ [mkAuthentication (u_id u) (user_agent req)
                                               (now req)]))
                   (blocklist w)))
  ∨ (¬ returns_pair (fst (run (Login_post X req) w))
     ∧ access_token_of (fst (run (Login_post X req) w)) = None
     ∧ snd (run (Login_post X req) w) = w).
Proof.
  unfold run, Login_post. names. unfold bind, pure.
  destruct (truthy (json req)) eqn:T; cbn [negb]; cbv iota; [|no_pair].
  unfold subscript.
  destruct (json req) as [| | | | |l|d]; try no_pair.
  destruct (dict_get "login" d) as [l|]; [|no_pair].
  unfold pure, find_user, query. cbn [db world].
  destruct (match l with
            | PStr l0 => Store.user_by_login (db w) l0
            | _ => None
            end) as [u|] eqn:F; [|no_pair].
  destruct (dict_get "password" d) as [p|]; [|no_pair].
  unfold lift.
  destruct (check_password X p (u_password u)) as [[|]|e];
    [ | no_pair | no_pair ].
  left. exists u.
  assert (Hl : ∃ l0, Store.user_by_login (db w) l0 = Some u).
  { destruct l; try discriminate. eauto. }
  destruct Hl as [l0 Hl]. split.
  { apply List.find_some in Hl as [Hin _]. by apply list_elem_of_In. }
  destruct (found_by_login_has_id _ _ _ Hl) as [v Hv].
  unfold db_session_add, db_session_commit. cbn.
  rewrite Hv. reflexivity.
Qed.

Lemma app_one_neq {A} (l : list A) (a : A) : l ≠ (l ++ [a])%list.
Proof.
  intros H. apply (f_equal List.length) in H.
  rewrite List.length_app in H. simpl in H. lia.
Qed.

(** C3.  Two login requests that both carry 'login' and 'password', one
    for a login no user has and one for the login of a user whose
    password the verifier does not match, get the same answer, 'Invalid
    credentials' with status 401, and both leave the world as it was. *)
Theorem login_failures_indistinguishable (X : Externals) (w : World)
    (r1 r2 : Request) d1 d2 l1 p1 l2 p2 u :
  json r1 = PDict d1 → dict_get "login" d1 = Some l1 →
  dict_get "password" d1 = Some p1 →
  json r2 = PDict d2 → dict_get "login" d2 = Some l2 →
  dict_get "password" d2 = Some p2 →
  fst (run (find_user l1) w) = Ret None →
  fst (run (find_user l2) w) = Ret (Some u) →
  check_password X p2 (u_password u) = Ret false →
  run (Login_post X r1) w
    = (Ret (PDict [("error", PStr "Invalid credentials")], 401), w)
  ∧ run (Login_post X r2) w = run (Login_post X r1) w.
Proof.
  intros J1 L1 P1 J2 L2 P2 F1 F2 C.
  pose proof (truthy_dict _ _ _ L1) as T1.
  pose proof (truthy_dict _ _ _ L2) as T2.
  unfold run, find_user, query in F1, F2. simpl in F1, F2.
  injection F1 as F1. injection F2 as F2.
  assert (E1 : run (Login_post X r1) w
    = (Ret (PDict [("error", PStr "Invalid credentials")], 401), w)).
  { unfold run, Login_post. names. unfold bind, pure.
    rewrite J1, T1. cbn [negb]. cbv iota. unfold subscript. rewrite L1.
    unfold pure, find_user, query. cbn [db world]. rewrite F1. reflexivity. }
  split; [exact E1|]. rewrite E1.
  unfold run, Login_post. names. unfold bind, pure.
  rewrite J2, T2. cbn [negb]. cbv iota. unfold subscript. rewrite L2, P2.
  unfold pure, find_user, query. cbn [db world]. rewrite F2.
  unfold lift. rewrite C. reflexivity.
Qed.

Lemma login_failures_indistinguishable_witness :
  run (Login_post Demo.X
         (Demo.request (Demo.credentials "zed" "pwx") None 5 "j1" "j2"))
      Demo.w0
    = (Ret (PDict [("error", PStr "Invalid credentials")], 401), Demo.w0)
  ∧ run (Login_post Demo.X
           (Demo.request (Demo.credentials "alice" "pwx") None 7 "j3" "j4"))
        Demo.w0
    = run (Login_post Demo.X
             (Demo.request (Demo.credentials "zed" "pwx") None 5 "j1" "j2"))
          Demo.w0.
Proof.
  apply (login_failures_indistinguishable Demo.X Demo.w0
           (Demo.request (Demo.credentials "zed" "pwx") None 5 "j1" "j2")
           (Demo.request (Demo.credentials "alice" "pwx") None 7 "j3" "j4")
           [("login", PStr "zed"); ("password", PStr "pwx")]
           [("login", PStr "alice"); ("password", PStr "pwx")]
           (PStr "zed") (PStr "pwx") (PStr "alice") (PStr "pwx") Demo.alice);
    reflexivity.
Defined.

(** C8.  For every login request, a record of the login is appended
    exactly when a pair of tokens is returned: with a pair, the one commit
    of the view has appended the record of that user and changed nothing
    else; without a pair, the world is the one before the request. *)
Theorem login_recorded_iff_pair_returned (X : Externals) (req : Request)
    (w : World) :
  let o := fst (run (Login_post X req) w) in
  let w' := snd (run (Login_post X req) w) in
  (login_recorded w w' ↔ returns_pair o)
  ∧ (returns_pair o →
     ∃ u a r,
       u ∈ users (db w)
       ∧ o = Ret (PDict [("access_token", PJwt a);
                         ("refresh_token", PJwt r)], 200)
       ∧ sub a = u_id u ∧ sub r = u_id u
       ∧ w' = mkWorld
                (mkDB (users (db w)) (roles (db w)) (roles_users (db w))
                      (authentications (db w)
                       ++ [mkAuthentication (u_id u) (user_agent req)
                                            (now req)]))
                (blocklist w))
  ∧ (¬ returns_pair o → w' = w).
Proof.
  cbv zeta.
  destruct (login_cases X req w) as [(u & Hu & E) | (Hn & _ & Hw)].
  - rewrite E. cbn [fst snd].
    assert (Hp : returns_pair
      (Ret (PDict [("access_token",
                    PJwt (create_access_token X (now req) (fst (uuid4 req))
                                              (u_id u) None));
                   ("refresh_token",
                    PJwt (create_refresh_token X (now req) (snd (uuid4 req))
                                               (u_id u)))], 200))).
    { eexists _, _. reflexivity. }
    split; [|split].
    + split; [intros _; exact Hp|]. intros _. eexists. reflexivity.
    + intros _. exists u. eexists _, _.
      split; [exact Hu|]. split; [reflexivity|]. repeat split.
    + intros Hn. contradiction.
  - rewrite Hw. split; [|split].
    + split; [|intros Hp; contradiction].
      intros [a Ha]. exfalso. exact (app_one_neq _ _ Ha).
    + intros Hp. contradiction.
    + reflexivity.
Qed.

(** Whatever its outcome, an access token that a login returns is not
    fresh: the call of line 135 leaves [fresh] to its default. *)
Lemma login_access_token_not_fresh (X : Externals) req w t :
  access_token_of (fst (run (Login_post X req) w)) = Some t →
  fresh t = false.
Proof.
  destruct (login_cases X req w) as [(u & _ & E) | (_ & Hn & _)].
  - rewrite E. cbn. intros [= <-]. reflexivity.
  - rewrite Hn. discriminate.
Qed.

(** An access token that a refresh returns is not fresh either. *)
Lemma refresh_access_token_not_fresh (X : Externals) req w t :
  access_token_of (fst (run (RefreshTokens_post X req) w)) = Some t →
  fresh t = false.
Proof.
  unfold run, RefreshTokens_post, bind.
  destruct (jwt_required X true req _) as [[jwt|e] s'].
  - unfold try_except. rewrite refresh_try_returns. cbn.
    intros [= <-]. reflexivity.
  - cbn. discriminate.
Qed.

(** C6.  Alice logs in and then refreshes: the access token of the
    login and the access token of the refresh both carry [fresh] equal to
    [False]; the flag does not tell the two ways of issue apart. *)
Theorem login_and_refresh_tokens_equally_fresh :
  ∃ a a',
    access_token_of (fst (run (Login_post Demo.X Demo.login_alice) Demo.w0))
      = Some a
    ∧ access_token_of
        (fst (run (RefreshTokens_post Demo.X Demo.refresh_alice) Demo.w1))
      = Some a'
    ∧ fresh a = false ∧ fresh a' = false ∧ fresh a = fresh a'.
Proof.
  eexists _, _.
  split; [vm_compute; reflexivity|].
  split; [vm_compute; reflexivity|].
  repeat split.
Qed.

(** ** Identifiers in the path *)

Lemma jwt_required_authenticated X req s :
  authenticated X req (world s) →
  ∃ token, jwt_required X false req s = (Ret token, s).
Proof.
  intros (token & Ha & Hv). exists token.
  unfold jwt_required. rewrite Ha, Hv. reflexivity.
Qed.

Lemma both_uuid_eq X u r s :
  both_uuid X u r s = (Ret (is_uuid X u && is_uuid X r), s).
Proof.
  unfold both_uuid. names. unfold bind, pure.
  destruct (is_uuid X u); reflexivity.
Qed.

(** The validator reads nothing of the world but the block-list. *)
Lemma authenticated_blocklist X req w w' :
  blocklist w' = blocklist w →
  authenticated X req w → authenticated X req w'.
Proof.
  intros Hb (token & Ha & Hv). exists token. split; [exact Ha|].
  unfold validate, is_revoked in *. rewrite Hb. exact Hv.
Qed.

Ltac enter_view Hauth :=
  let token := fresh "token" in
  let Hj := fresh "Hj" in
  unfold run;
  destruct (jwt_required_authenticated _ _ (mkSt _ []) Hauth) as [token Hj];
  cbn [view_of];
  unfold ChangeCreds_put, LoginHistory_get, UserRoles_get,
    ChangeUserRoles_post, ChangeUserRoles_delete;
  unfold bind at 1; rewrite Hj;
  names; unfold bind at 1; try rewrite both_uuid_eq; unfold pure at 1.

(** C9, as stated, fails.  With a well-formed identifier that names no
    user, the login history answers 200 with an empty list, and the
    credential update with the empty object as body answers 'Empty
    data'; neither is the not-found error. *)
Lemma unknown_user_is_not_always_not_found :
  let req := Demo.request (PDict []) (Some Demo.alice_access) 10 "" "" in
  authenticated Demo.X req Demo.w1
  ∧ well_formed Demo.X (op_login_history Demo.nobody_id) = true
  ∧ fst (run (get_by_id Demo.nobody_id) Demo.w1) = Ret None
  ∧ run (view_of Demo.X (op_login_history Demo.nobody_id) req) Demo.w1
    = (Ret (PDict [("result", PList [])], 200), Demo.w1)
  ∧ run (view_of Demo.X (op_change_creds Demo.nobody_id) req) Demo.w1
    = (Ret (PDict [("msg", PStr "Empty data")], 400), Demo.w1)
  ∧ fst (run (view_of Demo.X (op_login_history Demo.nobody_id) req) Demo.w1)
    ≠ Ret user_not_found
  ∧ fst (run (view_of Demo.X (op_change_creds Demo.nobody_id) req) Demo.w1)
    ≠ Ret user_not_found.
Proof.
  cbv zeta. split.
  { exists Demo.alice_access. split; vm_compute; reflexivity. }
  repeat split; try (vm_compute; reflexivity); vm_compute; congruence.
Qed.

(** C9, amended.  For an authenticated request to the credential update,
    the login history, the user roles, or the addition or removal of a
    role: an identifier that [is_uuid] refuses is answered 'Invalid UUID
    format' with status 400; well-formed identifiers of which the user
    id names no user are answered 'No user with specified id' by the
    user roles, by the addition and the removal of a role, and by the
    credential update when the body is not empty; a well-formed role id
    that names no role, for an existing user, is answered 'No role with
    specified id'.  In each case the world is left as it was. *)
Theorem path_identifiers_rejected (X : Externals) (op : operation)
    (req : Request) (w : World) :
  authenticated X req w →
  (well_formed X op = false →
   run (view_of X op req) w = (Ret invalid_identifier, w))
  ∧ (well_formed X op = true → looks_user_up op req = true →
     fst (run (get_by_id (user_id_of op)) w) = Ret None →
     run (view_of X op req) w = (Ret user_not_found, w))
  ∧ (∀ role_id user,
       well_formed X op = true → role_id_of op = Some role_id →
       fst (run (get_by_id (user_id_of op)) w) = Ret (Some user) →
       fst (run (find_by_id role_id) w) = Ret None →
       run (view_of X op req) w = (Ret role_not_found, w)).
Proof.
  intros Hauth. unfold well_formed. split; [|split].
  - intros Hwf.
    destruct op as [u|u|u|u r|u r]; cbn in Hwf;
      rewrite ?andb_true_r in Hwf; enter_view Hauth;
      rewrite Hwf; reflexivity.
  - intros Hwf Hlook Hnone.
    unfold run, get_by_id, query in Hnone. cbn in Hnone.
    injection Hnone as Hnone.
    destruct op as [u|u|u|u r|u r]; cbn in Hwf, Hlook, Hnone;
      rewrite ?andb_true_r in Hwf; try discriminate; enter_view Hauth;
      rewrite Hwf; cbn [negb]; cbv iota.
    + unfold try_except, bind, pure. rewrite Hlook. cbn [negb]. cbv iota.
      unfold get_by_id, query. cbn [db world]. rewrite Hnone. reflexivity.
    + unfold bind, get_by_id, query. cbn [db world]. rewrite Hnone.
      reflexivity.
    + unfold bind, get_by_id, query. cbn [db world]. rewrite Hnone.
      reflexivity.
    + unfold bind, get_by_id, query. cbn [db world]. rewrite Hnone.
      reflexivity.
  - intros role_id user Hwf Hr Hsome Hnone.
    unfold run, get_by_id, find_by_id, query in Hsome, Hnone.
    cbn in Hsome, Hnone. injection Hsome as Hsome. injection Hnone as Hnone.
    destruct op as [u|u|u|u r|u r]; cbn in Hwf, Hr, Hsome;
      try discriminate; injection Hr as ->; enter_view Hauth;
      rewrite Hwf; cbn [negb]; cbv iota;
      unfold bind, get_by_id, find_by_id, query; cbn [db world];
      rewrite Hsome; unfold pure; cbn [db world]; rewrite Hnone; reflexivity.
Qed.

Lemma path_identifiers_rejected_witness :
  let req := Demo.request (PDict [("first_name", PStr "Al")])
                          (Some Demo.alice_access) 10 "" "" in
  run (view_of Demo.X (op_login_history "42") req) Demo.w1
    = (Ret invalid_identifier, Demo.w1)
  ∧ run (view_of Demo.X (op_change_creds Demo.nobody_id) req) Demo.w1
    = (Ret user_not_found, Demo.w1)
  ∧ run (view_of Demo.X (op_add_role Demo.alice_id Demo.nobody_id) req)
        Demo.w1
    = (Ret role_not_found, Demo.w1).
Proof.
  cbv zeta.
  assert (Hauth : authenticated Demo.X
            (Demo.request (PDict [("first_name", PStr "Al")])
                          (Some Demo.alice_access) 10 "" "") Demo.w1).
  { exists Demo.alice_access. split; vm_compute; reflexivity. }
  split; [|split].
  - apply (path_identifiers_rejected Demo.X (op_login_history "42") _ Demo.w1
             Hauth).
    reflexivity.
  - apply (path_identifiers_rejected Demo.X
             (op_change_creds Demo.nobody_id) _ Demo.w1 Hauth);
      reflexivity.
  - apply (proj2 (proj2 (path_identifiers_rejected Demo.X
             (op_add_role Demo.alice_id Demo.nobody_id) _ Demo.w1
             Hauth)) Demo.nobody_id Demo.alice); reflexivity.
Defined.


(** ** Roles *)

Section Roles.

Context (X : Externals) (req : Request) (user_id role_id : string).
Context (user : User) (role : Role).

Lemma found_ids w :
  found w user_id role_id user role →
  u_id user = user_id ∧ r_id role = role_id.
Proof.
  intros [Hu Hr].
  apply List.find_some in Hu as [_ Hu]. apply List.find_some in Hr as [_ Hr].
  apply String.eqb_eq in Hu, Hr. auto.
Qed.

Hypothesis Huuid : is_uuid X user_id && is_uuid X role_id = true.

Ltac enter_role_view Hauth Hf :=
  let Eu := fresh "Eu" in
  let Er := fresh "Er" in
  let Hu := fresh "Hu" in
  let Hr := fresh "Hr" in
  let token := fresh "token" in
  let Hj := fresh "Hj" in
  destruct (found_ids _ Hf) as [Eu Er]; destruct Hf as [Hu Hr];
  match goal with w : World |- _ => destruct w as [d bl] end;
  cbn [db blocklist] in *; unfold run;
  destruct (jwt_required_authenticated _ _ (mkSt _ []) Hauth) as [token Hj];
  unfold ChangeUserRoles_post, ChangeUserRoles_delete;
  unfold bind at 1; rewrite Hj;
  unfold bind at 1; rewrite both_uuid_eq, Huuid; cbn [negb]; cbv iota;
  names;
  unfold bind, get_by_id, find_by_id, query, add_role_to_user,
    remove_role_from_user;
  cbn [db world]; rewrite Hu; cbn [db world]; rewrite Hr;
  unfold bind, query; cbn [db world]; rewrite Eu, Er.

(** Adding a role the user holds: success, and nothing is written. *)
Lemma add_role_held w :
  authenticated X req w → found w user_id role_id user role →
  Store.has_role (db w) user_id role_id = true →
  run (ChangeUserRoles_post X user_id role_id req) w = (Ret success, w).
Proof.
  intros Hauth Hf Hheld. enter_role_view Hauth Hf.
  rewrite Hheld. reflexivity.
Qed.

(** Adding a role the user does not hold: one row of the association. *)
Lemma add_role_absent w :
  authenticated X req w → found w user_id role_id user role →
  Store.has_role (db w) user_id role_id = false →
  run (ChangeUserRoles_post X user_id role_id req) w
  = (Ret success,
     mkWorld (mkDB (users (db w)) (roles (db w))
                   (roles_users (db w) ++ [(user_id, role_id)])
                   (authentications (db w)))
             (blocklist w)).
Proof.
  intros Hauth Hf Hheld. enter_role_view Hauth Hf.
  rewrite Hheld. unfold db_session_add, db_session_commit. cbn.
  rewrite Hu, Hr. reflexivity.
Qed.

(** Removing a role the user does not hold: success, nothing written. *)
Lemma remove_role_absent w :
  authenticated X req w → found w user_id role_id user role →
  Store.has_role (db w) user_id role_id = false →
  run (ChangeUserRoles_delete X user_id role_id req) w = (Ret success, w).
Proof.
  intros Hauth Hf Hheld. enter_role_view Hauth Hf.
  rewrite Hheld. reflexivity.
Qed.

End Roles.

(** C7.  For an authenticated request that names an existing user and an
    existing role by well-formed identifiers: adding the role to a user
    that holds it, and removing it from a user that does not, both
    answer 'Success' and leave the world, so the role set, as it was;
    and adding the role a second time answers 'Success' and leaves the
    world as the first addition made it. *)
Theorem role_mutation_idempotent (X : Externals) (req : Request)
    (w : World) (user_id role_id : string) (user : User) (role : Role) :
  authenticated X req w →
  is_uuid X user_id = true → is_uuid X role_id = true →
  fst (run (get_by_id user_id) w) = Ret (Some user) →
  fst (run (find_by_id role_id) w) = Ret (Some role) →
  let add := run (ChangeUserRoles_post X user_id role_id req) in
  let remove := run (ChangeUserRoles_delete X user_id role_id req) in
  (Store.has_role (db w) user_id role_id = true → add w = (Ret success, w))
  ∧ (Store.has_role (db w) user_id role_id = false →
     remove w = (Ret success, w))
  ∧ fst (add w) = Ret success
  ∧ add (snd (add w)) = (Ret success, snd (add w)).
Proof.
  intros Hauth Hu Hr Hgu Hgr add remove. subst add remove.
  assert (Huuid : is_uuid X user_id && is_uuid X role_id = true)
    by (rewrite Hu, Hr; reflexivity).
  assert (Hf : found w user_id role_id user role).
  { unfold run, get_by_id, find_by_id, query in Hgu, Hgr. cbn in Hgu, Hgr.
    split; congruence. }
  split; [|split].
  - intros Hheld. by apply (add_role_held X req user_id role_id user role).
  - intros Hheld.
    by apply (remove_role_absent X req user_id role_id user role).
  - destruct (Store.has_role (db w) user_id role_id) eqn:Hheld.
    + rewrite (add_role_held X req user_id role_id user role Huuid w
                 Hauth Hf Hheld).
      split; [reflexivity|]. cbn [snd].
      by apply (add_role_held X req user_id role_id user role).
    + rewrite (add_role_absent X req user_id role_id user role Huuid w
                 Hauth Hf Hheld).
      split; [reflexivity|]. cbn [snd].
      apply (add_role_held X req user_id role_id user role Huuid).
      * by apply (authenticated_blocklist X req w).
      * exact Hf.
      * unfold Store.has_role. cbn. apply bool_decide_eq_true.
        apply elem_of_app. right. apply list_elem_of_singleton. reflexivity.
Qed.

Lemma role_mutation_idempotent_witness :
  let req := Demo.request PNone (Some Demo.alice_access) 10 "" "" in
  let add := run (ChangeUserRoles_post Demo.X Demo.alice_id Demo.admin_id
                                       req) in
  let remove := run (ChangeUserRoles_delete Demo.X Demo.alice_id
                                            Demo.admin_id req) in
  remove Demo.w1 = (Ret success, Demo.w1)
  ∧ fst (add Demo.w1) = Ret success
  ∧ add (snd (add Demo.w1)) = (Ret success, snd (add Demo.w1)).
Proof.
  cbv zeta.
  assert (Hauth : authenticated Demo.X
            (Demo.request PNone (Some Demo.alice_access) 10 "" "") Demo.w1).
  { exists Demo.alice_access. split; vm_compute; reflexivity. }
  pose proof (role_mutation_idempotent Demo.X
                (Demo.request PNone (Some Demo.alice_access) 10 "" "")
                Demo.w1 Demo.alice_id Demo.admin_id Demo.alice
                (mkRole Demo.admin_id "admin") Hauth
                eq_refl eq_refl eq_refl eq_refl) as (_ & Hrm & Ha & Haa).
  split; [|split].
  - apply Hrm. reflexivity.
  - exact Ha.
  - exact Haa.
Defined.

(** ** Sign-up *)

Lemma add_roles_eq id rids s :
  foldr (λ rid k, db_session_add (InsertRoleUser id rid) ;;; k)
        (pure tt) rids s
  = (Ret tt, mkSt (world s) (session s ++ map (InsertRoleUser id) rids)).
Proof.
  revert s. induction rids as [|r rids IH]; intros [w ps]; cbn.
  - rewrite app_nil_r. reflexivity.
  - unfold bind, db_session_add. cbn. rewrite IH. cbn.
    rewrite <- app_assoc. reflexivity.
Qed.

Lemma create_user_eq id d rids row s :
  listed_roles d = Ret rids → kwargs_row d = Ret row →
  create_user id d s
  = (Ret tt, mkSt (world s)
       (session s ++ InsertUser id row
                     :: map (InsertRoleUser (Store.new_id id row)) rids)).
Proof.
  intros Hr Hk. unfold create_user.
  unfold bind at 1. unfold lift at 1. rewrite Hr.
  unfold bind at 1. unfold lift at 1. rewrite Hk.
  unfold bind at 1. unfold db_session_add at 1. cbn [world session].
  rewrite add_roles_eq. cbn [world session]. rewrite <- app_assoc.
  reflexivity.
Qed.

Lemma clashes_true u v us :
  v ∈ us → (u_login u = u_login v ∨ u_email u = u_email v) →
  Store.clashes u us = true.
Proof.
  intros Hin Hdup. unfold Store.clashes. apply existsb_exists.
  exists v. split; [by apply list_elem_of_In|].
  destruct Hdup as [E|E]; rewrite E, String.eqb_refl;
    rewrite ?orb_true_r; reflexivity.
Qed.

Lemma signup_user_inv X id d u :
  signup_user X id d = Ret u →
  ∃ p h rids row,
    dict_get "password" d = Some p ∧ get_hash X p = Ret h
    ∧ listed_roles (dict_set "password" (PStr h) d) = Ret rids
    ∧ kwargs_row (dict_set "password" (PStr h) d) = Ret row
    ∧ Store.build_user id row = Ret u.
Proof.
  unfold signup_user. intros H.
  destruct (dict_get "password" d) as [p|]; [|discriminate].
  destruct (get_hash X p) as [h|] eqn:Hh; [|discriminate]. cbn in H.
  destruct (listed_roles _) as [rids|] eqn:Hr; [|discriminate]. cbn in H.
  destruct (kwargs_row _) as [row|] eqn:Hk; [|discriminate]. cbn in H.
  exists p, h, rids, row. repeat split; auto.
Qed.

(** A valid payload that reuses the login or the email of a stored user
    is answered with the duplicate error, and nothing is written. *)
Lemma signup_duplicate (X : Externals) req d u v w :
  json req = PDict d →
  signup_user X (fst (uuid4 req)) d = Ret u →
  v ∈ users (db w) →
  u_login u = u_login v ∨ u_email u = u_email v →
  run (SignUp_post X req) w = (Ret duplicate_identity, w).
Proof.
  intros J Hs Hin Hdup.
  destruct (signup_user_inv _ _ _ _ Hs)
    as (p & h & rids & row & P & G & R & K & B).
  pose proof (truthy_dict _ _ _ P) as T.
  unfold run, SignUp_post, try_except. names.
  unfold bind at 1. unfold pure at 1.
  rewrite J, T. cbn [negb]. cbv iota.
  unfold bind at 1. unfold bind at 1. unfold subscript at 1. rewrite P.
  unfold pure at 1. unfold lift at 1. rewrite G.
  unfold bind at 1. unfold setitem, pure at 1.
  unfold bind at 1. rewrite (create_user_eq _ _ _ _ _ R K).
  unfold bind at 1. unfold db_session_commit. cbn [session world app].
  cbn [Store.flush Store.apply_pending]. rewrite B. cbn [Store.obind].
  rewrite (clashes_true _ _ _ Hin Hdup). cbn. reflexivity.
Qed.

Lemma flush_roles_users id rids d d' :
  Store.flush (map (InsertRoleUser id) rids) d = Ret d' → users d' = users d.
Proof.
  revert d. induction rids as [|r rids IH]; intros d H; cbn in H.
  - congruence.
  - destruct (Store.user_by_id d id); [|discriminate].
    destruct (Store.role_by_id d r); [|discriminate].
    cbn in H. apply IH in H. exact H.
Qed.

Lemma dict_get_set_ne k k' v d :
  k ≠ k' → dict_get k (dict_set k' v d) = dict_get k d.
Proof.
  intros Hne. induction d as [|[k0 v0] d IH]; cbn.
  - destruct (String.eqb_spec k k'); [contradiction|reflexivity].
  - destruct (String.eqb_spec k' k0) as [->|Hk]; cbn.
    + destruct (String.eqb_spec k k0); [contradiction|reflexivity].
    + destruct (String.eqb_spec k k0); [reflexivity|exact IH].
Qed.

(** A successful sign-up has inserted the row its payload describes. *)
Lemma signup_success_inv (X : Externals) req d resp w w1 :
  json req = PDict d →
  run (SignUp_post X req) w = (Ret (resp, 201), w1) →
  ∃ u, signup_user X (fst (uuid4 req)) d = Ret u
       ∧ u ∈ users (db w1)
       ∧ users (db w1) = (users (db w) ++ [u])%list.
Proof.
  intros J H. unfold run, SignUp_post in H.
  match type of H with
  | context [try_except ?b _ _ _] => set (body := b) in H
  end.
  unfold try_except in H.
  destruct (body _) as [[[r z]|e] s'] eqn:Hb.
  2:{ revert H. names. unfold pure.
      destruct (isinstance e cls_IntegrityError); cbn; congruence. }
  cbn in H. injection H as -> -> <-.
  subst body. revert Hb. names. unfold bind at 1. unfold pure at 1.
  rewrite J. destruct (truthy (PDict d)); cbn [negb]; cbv iota;
    [|unfold pure; congruence].
  unfold bind at 1. unfold bind at 1. unfold subscript at 1.
  unfold signup_user.
  destruct (dict_get "password" d) as [p|]; [|unfold raise; congruence].
  unfold pure at 1. unfold lift at 1.
  destruct (get_hash X p) as [h|]; [|congruence]. cbn [Store.obind].
  unfold bind at 1. unfold setitem, pure at 1.
  unfold bind at 1. unfold create_user.
  unfold bind at 1. unfold lift at 1.
  destruct (listed_roles _) as [rids|]; [|congruence]. cbn [Store.obind].
  unfold bind at 1. unfold lift at 1.
  destruct (kwargs_row _) as [row|]; [|congruence]. cbn [Store.obind].
  unfold bind at 1. unfold db_session_add at 1. cbn [world session].
  rewrite add_roles_eq. cbn [world session app].
  unfold bind at 1. unfold db_session_commit.
  cbn [session world Store.flush Store.apply_pending].
  destruct (Store.build_user _ row) as [u|]; [|cbn; congruence].
  cbn [Store.obind].
  destruct (Store.clashes u (users (db w))); [cbn; congruence|].
  cbn [Store.obind].
  destruct (Store.flush _ _) as [d'|] eqn:F; [|congruence].
  apply flush_roles_users in F. cbn in F.
  unfold bind, subscript.
  destruct (dict_get "login" _); [|unfold raise; congruence].
  unfold pure. intros Hb. injection Hb as _ <-. cbn [world db].
  exists u. split; [reflexivity|]. rewrite F. split; [|reflexivity].
  apply elem_of_app. right. apply list_elem_of_singleton. reflexivity.
Qed.

Lemma build_user_identity id row u :
  Store.build_user id row = Ret u →
  Store.row_get col_login row = PStr (u_login u)
  ∧ Store.row_get col_email row = PStr (u_email u).
Proof.
  unfold Store.build_user. intros H.
  destruct (match Store.row_get col_id row with
            | PNone => Ret id
            | v => Store.required v
            end) as [i|]; [|discriminate]. cbn [Store.obind] in H.
  destruct (Store.row_get col_login row) as [| | |l| | |]; try discriminate.
  destruct (Store.row_get col_email row) as [| | |e| | |]; try discriminate.
  cbn in H.
  destruct (Store.required _); [|discriminate]. cbn in H.
  destruct (Store.nullable _); [|discriminate]. cbn in H.
  destruct (Store.nullable _); [|discriminate]. cbn in H.
  injection H as <-. auto.
Qed.

Lemma column_of_key_login k :
  Store.column_of_key k = Some col_login ↔ k = "login".
Proof.
  unfold Store.column_of_key. split.
  - repeat match goal with
           | |- context [String.eqb k ?x] =>
               destruct (String.eqb_spec k x); [congruence|]
           end.
    discriminate.
  - intros ->. reflexivity.
Qed.

Lemma column_of_key_email k :
  Store.column_of_key k = Some col_email ↔ k = "email".
Proof.
  unfold Store.column_of_key. split.
  - repeat match goal with
           | |- context [String.eqb k ?x] =>
               destruct (String.eqb_spec k x); [congruence|]
           end.
    discriminate.
  - intros ->. reflexivity.
Qed.

Lemma kwargs_row_get k c d row :
  (∀ k', Store.column_of_key k' = Some c ↔ k' = k) → k ≠ "roles" →
  kwargs_row d = Ret row →
  Store.row_get c row = default PNone (dict_get k d).
Proof.
  intros Hc Hk. revert row.
  induction d as [|[k0 v0] d IH]; intros row H; cbn in H.
  - injection H as <-. reflexivity.
  - cbn [dict_get]. destruct (String.eqb_spec k0 "roles") as [->|Hr].
    + destruct (String.eqb_spec k "roles"); [contradiction|]. by apply IH.
    + destruct (Store.column_of_key k0) as [c0|] eqn:E0; [|discriminate].
      destruct (kwargs_row d) as [r|]; [|discriminate]. cbn in H.
      injection H as <-. cbn [Store.row_get].
      destruct (String.eqb_spec k k0) as [->|Hne].
      * pose proof (proj2 (Hc k0) eq_refl) as E. rewrite E in E0.
        injection E0 as <-.
        rewrite bool_decide_eq_true_2 by reflexivity. reflexivity.
      * rewrite bool_decide_eq_false_2.
        { by apply IH. }
        intros <-. apply Hc in E0. congruence.
Qed.

(** The login and the email of the row are those of the payload. *)
Lemma signup_user_identity X id d u :
  signup_user X id d = Ret u →
  dict_get "login" d = Some (PStr (u_login u))
  ∧ dict_get "email" d = Some (PStr (u_email u)).
Proof.
  intros H.
  destruct (signup_user_inv _ _ _ _ H)
    as (p & h & rids & row & _ & _ & _ & K & B).
  destruct (build_user_identity _ _ _ B) as [L E].
  rewrite (kwargs_row_get "login" col_login _ _ column_of_key_login) in L
    by (congruence || exact K).
  rewrite (kwargs_row_get "email" col_email _ _ column_of_key_email) in E
    by (congruence || exact K).
  rewrite dict_get_set_ne in L, E by congruence.
  destruct (dict_get "login" d); [|discriminate].
  destruct (dict_get "email" d); [|discriminate].
  cbn in L, E. subst. auto.
Qed.

(** The primary key the session uses for the association is the one of
    the row. *)
Lemma build_user_id id row u :
  Store.build_user id row = Ret u → Store.new_id id row = u_id u.
Proof.
  unfold Store.build_user, Store.new_id. intros H.
  destruct (Store.row_get col_id row) as [| | |i| | |]; try discriminate;
    cbn [Store.obind Store.required] in H;
    (destruct (Store.required (Store.row_get col_login row));
       [|discriminate]; cbn in H;
     destruct (Store.required (Store.row_get col_email row));
       [|discriminate]; cbn in H;
     destruct (Store.required (Store.row_get col_password row));
       [|discriminate]; cbn in H;
     destruct (Store.nullable _); [|discriminate]; cbn in H;
     destruct (Store.nullable _); [|discriminate]; cbn in H;
     injection H as <-; reflexivity).
Qed.

Lemma flush_roles_ok id rids us rs ru au :
  is_Some (List.find (λ u, String.eqb (u_id u) id) us) →
  Forall (λ r, is_Some (Store.role_by_id (mkDB us rs ru au) r)) rids →
  Store.flush (map (InsertRoleUser id) rids) (mkDB us rs ru au)
  = Ret (mkDB us rs (ru ++ map (λ r, (id, r)) rids) au).
Proof.
  intros [v Hv]. revert ru. induction rids as [|r rids IH]; intros ru Hall.
  - cbn. rewrite app_nil_r. reflexivity.
  - inversion Hall as [|? ? [ro Hr] Hall']; subst.
    cbn [map Store.flush Store.apply_pending].
    unfold Store.user_by_id. cbn [users]. rewrite Hv, Hr.
    cbn [Store.obind users roles roles_users authentications].
    rewrite IH by exact Hall'. rewrite <- app_assoc. reflexivity.
Qed.

Lemma listed_roles_set_password h d :
  listed_roles (dict_set "password" (PStr h) d) = listed_roles d.
Proof.
  unfold listed_roles. rewrite dict_get_set_ne by congruence. reflexivity.
Qed.

(** A valid payload whose row clashes with no stored user, and whose
    roles all exist, is answered 201 and adds exactly that row. *)
Lemma signup_creates_user (X : Externals) req d u rids w :
  json req = PDict d →
  signup_user X (fst (uuid4 req)) d = Ret u →
  Store.clashes u (users (db w)) = false →
  listed_roles d = Ret rids →
  Forall (λ r, is_Some (Store.role_by_id (db w) r)) rids →
  run (SignUp_post X req) w
  = (Ret (PDict [("user", PStr (u_login u))], 201),
     mkWorld (mkDB (users (db w) ++ [u]) (roles (db w))
                   (roles_users (db w) ++ map (λ r, (u_id u, r)) rids)
                   (authentications (db w)))
             (blocklist w)).
Proof.
  intros J Hs Hfree Hroles Hall.
  destruct (signup_user_identity _ _ _ _ Hs) as [L _].
  destruct (signup_user_inv _ _ _ _ Hs)
    as (p & h & rids' & row & P & G & R & K & B).
  rewrite listed_roles_set_password, Hroles in R. injection R as <-.
  pose proof (truthy_dict _ _ _ P) as T.
  unfold run, SignUp_post, try_except. names.
  unfold bind at 1. unfold pure at 1.
  rewrite J, T. cbn [negb]. cbv iota.
  unfold bind at 1. unfold bind at 1. unfold subscript at 1. rewrite P.
  unfold pure at 1. unfold lift at 1. rewrite G.
  unfold bind at 1. unfold setitem, pure at 1.
  unfold bind at 1.
  rewrite (create_user_eq _ _ rids row);
    [|by rewrite listed_roles_set_password|exact K].
  unfold bind at 1. unfold db_session_commit. cbn [session world app].
  cbn [Store.flush Store.apply_pending]. rewrite B. cbn [Store.obind].
  rewrite Hfree. cbn [Store.obind]. rewrite (build_user_id _ _ _ B).
  destruct w as [[us rs ru au] bl]. unfold Store.with_users.
  cbn [db users roles roles_users authentications blocklist] in *.
  rewrite flush_roles_ok; [| |exact Hall].
  - unfold bind, subscript. rewrite dict_get_set_ne by congruence.
    rewrite L. reflexivity.
  - destruct (List.find _ (us ++ [u])) as [v|] eqn:F; [eauto|].
    exfalso.
    assert (Hin : In u (us ++ [u])) by (apply in_or_app; right; left; auto).
    pose proof (List.find_none _ _ F u Hin) as E. cbn in E.
    rewrite String.eqb_refl in E. discriminate.
Qed.

(** C4.  After a sign-up that succeeded, a second sign-up with a valid
    payload that reuses its login or its email is answered 'Login or
    email already exist' with status 400, not an exception, and the
    world after it is the world before it: the first sign-up has added
    one user and the second adds none. *)
Theorem signup_duplicate_rejected (X : Externals) (w w1 : World)
    (r1 r2 : Request) (d1 d2 : list (string * pyval)) (resp : pyval)
    (u2 : User) :
  json r1 = PDict d1 →
  run (SignUp_post X r1) w = (Ret (resp, 201), w1) →
  json r2 = PDict d2 →
  signup_user X (fst (uuid4 r2)) d2 = Ret u2 →
  dict_get "login" d2 = dict_get "login" d1
  ∨ dict_get "email" d2 = dict_get "email" d1 →
  run (SignUp_post X r2) w1 = (Ret duplicate_identity, w1)
  ∧ length (users (db w1)) = S (length (users (db w))).
Proof.
  intros J1 H1 J2 V2 Hdup.
  destruct (signup_success_inv X r1 d1 resp w w1 J1 H1)
    as (u1 & V1 & Hin & Hus).
  destruct (signup_user_identity _ _ _ _ V1) as [L1 E1].
  destruct (signup_user_identity _ _ _ _ V2) as [L2 E2].
  split.
  - apply (signup_duplicate X r2 d2 u2 u1 w1 J2 V2 Hin).
    destruct Hdup as [E|E]; [left|right]; congruence.
  - rewrite Hus, length_app. cbn. lia.
Qed.

Lemma signup_duplicate_rejected_witness :
  let r1 := Demo.request (Demo.signup "alice" "pw1" "a@x.com") None 0
                         Demo.alice_id "" in
  let r2 := Demo.request (Demo.signup "alice" "pw2" "b@x.com") None 5
                         Demo.bob_id "" in
  let w1 := snd (run (SignUp_post Demo.X r1) Demo.empty) in
  run (SignUp_post Demo.X r2) w1 = (Ret duplicate_identity, w1)
  ∧ length (users (db w1)) = S (length (users (db Demo.empty))).
Proof.
  cbv zeta.
  apply (signup_duplicate_rejected Demo.X Demo.empty _
           (Demo.request (Demo.signup "alice" "pw1" "a@x.com") None 0
                         Demo.alice_id "")
           (Demo.request (Demo.signup "alice" "pw2" "b@x.com") None 5
                         Demo.bob_id "")
           [("login", PStr "alice"); ("password", PStr "pw1");
            ("email", PStr "a@x.com")]
           [("login", PStr "alice"); ("password", PStr "pw2");
            ("email", PStr "b@x.com")]
           (PDict [("user", PStr "alice")])
           (mkUser Demo.bob_id "alice" "b@x.com" "kdf$pw2" None None)).
  - reflexivity.
  - vm_compute. reflexivity.
  - reflexivity.
  - vm_compute. reflexivity.
  - left. reflexivity.
Defined.

(** * Further properties of the views *)

(** ** What no endpoint undoes *)

Lemma extends_refl w : extends w w.
Proof. repeat split; reflexivity || lia. Qed.

Lemma extends_trans w1 w2 w3 :
  extends w1 w2 → extends w2 w3 → extends w1 w3.
Proof.
  intros (B1 & R1 & A1 & U1) (B2 & R2 & A2 & U2).
  repeat split; try congruence; [by etrans|lia].
Qed.

Lemma keeps_same {A} (m : M A) :
  (∀ s, world (snd (m s)) = world s) → keeps m.
Proof. intros H s. rewrite H. apply extends_refl. Qed.

Lemma keeps_pure {A} (a : A) : keeps (pure a).
Proof. by apply keeps_same. Qed.

Lemma keeps_raise {A} e : keeps (@raise A e).
Proof. by apply keeps_same. Qed.

Lemma keeps_lift {A} (o : Outcome A) : keeps (lift o).
Proof. by apply keeps_same. Qed.

Lemma keeps_query {A} (q : DB → A) : keeps (query q).
Proof. by apply keeps_same. Qed.

Lemma keeps_add p : keeps (db_session_add p).
Proof. by apply keeps_same. Qed.

Lemma keeps_bind {A B} (m : M A) (f : A → M B) :
  keeps m → (∀ a, keeps (f a)) → keeps (bind m f).
Proof.
  intros Hm Hf s. unfold bind. specialize (Hm s).
  destruct (m s) as [[a|e] s']; cbn in *; [|exact Hm].
  eapply extends_trans; [exact Hm|apply Hf].
Qed.

Lemma keeps_global {A} n (m : M A) : keeps m → keeps (global n m).
Proof.
  intros H. unfold global. destruct (bound n); [exact H|apply keeps_raise].
Qed.

Lemma keeps_try {A} (body : M A) cls handler :
  keeps body → keeps cls → keeps handler →
  keeps (try_except body cls handler).
Proof.
  intros Hb Hc Hh s. unfold try_except. specialize (Hb s).
  destruct (body s) as [[a|e] s1]; cbn in *; [exact Hb|].
  specialize (Hc s1). destruct (cls s1) as [[c|e'] s2]; cbn in *.
  - destruct (isinstance e c).
    + eapply extends_trans; [exact Hb|]. eapply extends_trans; [exact Hc|].
      apply Hh.
    + eapply extends_trans; [exact Hb|exact Hc].
  - eapply extends_trans; [exact Hb|exact Hc].
Qed.

Lemma keeps_subscript v k : keeps (subscript v k).
Proof.
  unfold subscript. destruct v; try apply keeps_raise.
  destruct (dict_get k d); [apply keeps_pure|apply keeps_raise].
Qed.

Lemma keeps_setitem v k x : keeps (setitem v k x).
Proof. unfold setitem. destruct v; apply keeps_raise || apply keeps_pure. Qed.

Lemma keeps_jwt_required X r req : keeps (jwt_required X r req).
Proof.
  apply keeps_same. intros s. unfold jwt_required.
  destruct (authorization req); reflexivity.
Qed.

(** What one unit of work can do to the tables. *)
Lemma apply_pending_extends p d d' :
  Store.apply_pending p d = Ret d' →
  roles d' = roles d
  ∧ authentications d `prefix_of` authentications d'
  ∧ (length (users d) ≤ length (users d'))%nat.
Proof.
  destruct p as [id row|a|u r|u r|u row]; cbn.
  - destruct (Store.build_user id row) as [v|]; [|discriminate]. cbn.
    destruct (Store.clashes v (users d)); [discriminate|].
    intros [= <-]. cbn. rewrite length_app. cbn. repeat split; [done|lia].
  - destruct (Store.user_by_id d (a_user_id a)); [|discriminate].
    intros [= <-]. cbn. repeat split; [|lia]. by apply prefix_app_r.
  - destruct (Store.user_by_id d u); [|discriminate].
    destruct (Store.role_by_id d r); [|discriminate].
    intros [= <-]. cbn. repeat split; [done|lia].
  - intros [= <-]. cbn. repeat split; [done|lia].
  - destruct (Store.user_by_id d u) as [v|];
      [|intros [= <-]; repeat split; [done|lia]].
    destruct (Store.set_columns row v) as [v'|]; [|discriminate]. cbn.
    destruct (Store.clashes _ _); [discriminate|].
    destruct (_ && _); [discriminate|].
    intros [= <-]. cbn. rewrite length_map. repeat split; [done|lia].
Qed.

Lemma flush_extends ps d d' :
  Store.flush ps d = Ret d' →
  roles d' = roles d
  ∧ authentications d `prefix_of` authentications d'
  ∧ (length (users d) ≤ length (users d'))%nat.
Proof.
  revert d. induction ps as [|p ps IH]; intros d; cbn.
  - intros [= <-]. repeat split; [done|lia].
  - destruct (Store.apply_pending p d) as [d1|] eqn:E; [|discriminate]. cbn.
    intros H. apply IH in H as (R2 & A2 & U2).
    apply apply_pending_extends in E as (R1 & A1 & U1).
    repeat split; [congruence|by etrans|lia].
Qed.

Lemma keeps_commit : keeps db_session_commit.
Proof.
  intros s. unfold db_session_commit.
  destruct (Store.flush _ _) as [d'|e] eqn:F; cbn; [|apply extends_refl].
  apply flush_extends in F as (R & A & U). repeat split; assumption.
Qed.

Lemma keeps_create_user id d : keeps (create_user id d).
Proof.
  unfold create_user.
  apply keeps_bind; [apply keeps_lift|intros rids].
  apply keeps_bind; [apply keeps_lift|intros row].
  apply keeps_bind; [apply keeps_add|intros _].
  induction rids as [|r rids IH]; cbn; [apply keeps_pure|].
  apply keeps_bind; [apply keeps_add|intros _; exact IH].
Qed.

Lemma keeps_setattr uid user key value : keeps (setattr uid user key value).
Proof.
  unfold setattr. destruct (Store.column_of_key key).
  - by apply keeps_same.
  - destruct (String.eqb key "roles"); [|apply keeps_pure].
    destruct value as [| | | | |l|]; try apply keeps_raise.
    destruct l; [|apply keeps_raise].
    apply keeps_bind; [apply keeps_query|intros held].
    induction held as [|r held IH]; cbn; [apply keeps_pure|].
    apply keeps_bind; [apply keeps_add|intros _; exact IH].
Qed.

Ltac keeps_step :=
  first
    [ apply keeps_pure | apply keeps_raise | apply keeps_lift
    | apply keeps_query | apply keeps_add | apply keeps_commit
    | apply keeps_subscript | apply keeps_setitem | apply keeps_jwt_required
    | apply keeps_create_user | apply keeps_setattr
    | apply keeps_global
    | apply keeps_try
    | apply keeps_bind; [|intros ?]
    | match goal with
      | |- keeps (if ?b then _ else _) => destruct b
      | |- keeps (match ?x with _ => _ end) => destruct x
      end ].

Lemma keeps_loop X data uid items user :
  keeps (ChangeCreds_put_loop X data uid items user).
Proof.
  revert user. induction items as [|[key value] items IH]; intros user; cbn.
  - apply keeps_pure.
  - apply keeps_bind; [repeat keeps_step|intros v].
    apply keeps_bind; [repeat keeps_step|intros u]. apply IH.
Qed.

Lemma logout_keeps X req : keeps (Logout_delete X req).
Proof.
  apply keeps_same. intros s. by rewrite logout_writes_nothing.
Qed.

(** Every endpoint, on every request, ends in a world that extends the
    one it started in. *)
Lemma endpoint_keeps X ep req : keeps (endpoint_view X ep req).
Proof.
  destruct ep as [| | | |[u|u|u|u r|u r]]; cbn [endpoint_view view_of].
  - unfold SignUp_post. repeat keeps_step.
  - unfold Login_post. repeat keeps_step.
  - unfold RefreshTokens_post, RefreshTokens_post_try,
      RefreshTokens_post_except, RefreshTokens_post_handler.
    repeat keeps_step.
  - apply logout_keeps.
  - unfold ChangeCreds_put. repeat keeps_step. apply keeps_loop.
  - unfold LoginHistory_get, get_login_history. repeat keeps_step.
  - unfold UserRoles_get, get_by_id, user_roles. repeat keeps_step.
  - unfold ChangeUserRoles_post, both_uuid, get_by_id, find_by_id,
      add_role_to_user.
    repeat keeps_step.
  - unfold ChangeUserRoles_delete, both_uuid, get_by_id, find_by_id,
      remove_role_from_user.
    repeat keeps_step.
Qed.

Lemma run_world {A} (m : M A) w :
  snd (run m w) = world (snd (m (mkSt w []))).
Proof. unfold run. destruct (m _) as [o s]. reflexivity. Qed.

Lemma endpoint_extends X ep req w :
  extends w (snd (run (endpoint_view X ep req) w)).
Proof. rewrite run_world. apply (endpoint_keeps X ep req (mkSt w [])). Qed.

(** X1.  No request to any endpoint changes the block-list, so none
    changes what the validator answers for any token at any time: no
    endpoint revokes a token, logout included, and none restores one. *)
Theorem no_endpoint_changes_the_blocklist (X : Externals) (ep : endpoint)
    (req : Request) (w : World) :
  let w' := snd (run (endpoint_view X ep req) w) in
  blocklist w' = blocklist w
  ∧ ∀ t token required_type,
      validate X w' t token required_type
      = validate X w t token required_type.
Proof.
  cbv zeta. destruct (endpoint_extends X ep req w) as (B & _).
  split; [exact B|]. intros t token ty.
  unfold validate, is_revoked. rewrite B. reflexivity.
Qed.

(** X2.  The login history is append-only: after any request to any
    endpoint, the records that were stored are still there, unchanged
    and in the same order, before any new one. *)
Theorem history_is_append_only (X : Externals) (ep : endpoint)
    (req : Request) (w : World) :
  authentications (db w)
    `prefix_of` authentications (db (snd (run (endpoint_view X ep req) w))).
Proof. by destruct (endpoint_extends X ep req w) as (_ & _ & A & _). Qed.

(** X3.  No endpoint creates, changes or deletes a role, and none
    deletes a user: the roles table is the same after any request, and
    the users table has at least as many rows. *)
Theorem roles_fixed_users_kept (X : Externals) (ep : endpoint)
    (req : Request) (w : World) :
  let w' := snd (run (endpoint_view X ep req) w) in
  roles (db w') = roles (db w)
  ∧ (length (users (db w)) ≤ length (users (db w')))%nat.
Proof.
  cbv zeta. by destruct (endpoint_extends X ep req w) as (_ & R & _ & U).
Qed.

(** ** Bodies that are empty or incomplete *)

(** X4.  A body that is missing or falsy (null, the empty object or
    list or string, zero, false) is answered 'Credentials required'
    with status 400 by both [SignUp.post] and [Login.post]; nothing is
    read from the store and nothing is written. *)
Theorem empty_body_is_credentials_required (X : Externals) (req : Request)
    (w : World) :
  truthy (json req) = false →
  run (SignUp_post X req) w
    = (Ret (PDict [("error", PStr "Credentials required")], 400), w)
  ∧ run (Login_post X req) w
    = (Ret (PDict [("error", PStr "Credentials required")], 400), w).
Proof.
  intros T. unfold run, SignUp_post, Login_post, try_except. names.
  unfold bind, pure. rewrite T. split; reflexivity.
Qed.

Lemma empty_body_is_credentials_required_witness :
  run (SignUp_post Demo.X (Demo.request (PDict []) None 0 "a" "b")) Demo.w0
    = (Ret (PDict [("error", PStr "Credentials required")], 400), Demo.w0)
  ∧ run (Login_post Demo.X (Demo.request (PDict []) None 0 "a" "b")) Demo.w0
    = (Ret (PDict [("error", PStr "Credentials required")], 400), Demo.w0).
Proof.
  apply (empty_body_is_credentials_required Demo.X
           (Demo.request (PDict []) None 0 "a" "b") Demo.w0).
  reflexivity.
Defined.

(** X5.  A sign-up whose body is a non-empty object without 'password'
    is not answered: line 82 raises [KeyError], which the [except] clause
    of line 87 does not catch, and nothing is written. *)
Theorem signup_without_password_raises (X : Externals) (req : Request)
    (w : World) (d : list (string * pyval)) :
  json req = PDict d → d ≠ [] → dict_get "password" d = None →
  run (SignUp_post X req) w = (Raise (KeyError "password"), w).
Proof.
  intros J Hd P. unfold run, SignUp_post, try_except. names.
  unfold bind, pure. rewrite J.
  destruct d as [|kv d']; [contradiction|]. cbn [truthy negb]. cbv iota.
  unfold subscript. rewrite P. reflexivity.
Qed.

Lemma signup_without_password_raises_witness :
  run (SignUp_post Demo.X
         (Demo.request (PDict [("login", PStr "carol")]) None 0 "a" "b"))
      Demo.w0
  = (Raise (KeyError "password"), Demo.w0).
Proof.
  apply (signup_without_password_raises Demo.X _ Demo.w0
           [("login", PStr "carol")]).
  - reflexivity.
  - discriminate.
  - reflexivity.
Defined.

(** X6.  A login whose body has 'login' but no 'password' tells whether
    the login exists: for the login of a stored user line 134 raises
    [KeyError], for an unknown login the answer is 'Invalid credentials'
    with status 401.  Nothing is written in either case. *)
Theorem login_without_password_reveals_login (X : Externals) (req : Request)
    (w : World) (d : list (string * pyval)) (l : pyval) :
  json req = PDict d → dict_get "login" d = Some l →
  dict_get "password" d = None →
  (∀ u, fst (run (find_user l) w) = Ret (Some u) →
        run (Login_post X req) w = (Raise (KeyError "password"), w))
  ∧ (fst (run (find_user l) w) = Ret None →
     run (Login_post X req) w
     = (Ret (PDict [("error", PStr "Invalid credentials")], 401), w)).
Proof.
  intros J L P. pose proof (truthy_dict _ _ _ L) as T.
  split; [intros u F|intros F];
    unfold run, find_user, query in F; cbn in F; injection F as F;
    unfold run, Login_post; names; unfold bind, pure;
    rewrite J, T; cbn [negb]; cbv iota; unfold subscript; rewrite L;
    unfold pure, find_user, query; cbn [db world]; rewrite F;
    rewrite ?P; reflexivity.
Qed.

Lemma login_without_password_reveals_login_witness :
  run (Login_post Demo.X
         (Demo.request (PDict [("login", PStr "alice")]) None 0 "a" "b"))
      Demo.w0
    = (Raise (KeyError "password"), Demo.w0)
  ∧ run (Login_post Demo.X
           (Demo.request (PDict [("login", PStr "zed")]) None 0 "a" "b"))
        Demo.w0
    = (Ret (PDict [("error", PStr "Invalid credentials")], 401), Demo.w0).
Proof.
  split.
  - apply (proj1 (login_without_password_reveals_login Demo.X
             (Demo.request (PDict [("login", PStr "alice")]) None 0 "a" "b")
             Demo.w0 [("login", PStr "alice")] (PStr "alice")
             eq_refl eq_refl eq_refl) Demo.alice).
    reflexivity.
  - apply (proj2 (login_without_password_reveals_login Demo.X
             (Demo.request (PDict [("login", PStr "zed")]) None 0 "a" "b")
             Demo.w0 [("login", PStr "zed")] (PStr "zed")
             eq_refl eq_refl eq_refl)).
    reflexivity.
Defined.

(** ** Login and the tokens it issues *)


(** ** Sign-up, then login *)

Lemma dict_get_set_eq k v d : dict_get k (dict_set k v d) = Some v.
Proof.
  induction d as [|[k0 v0] d IH]; cbn.
  - by rewrite String.eqb_refl.
  - destruct (String.eqb_spec k k0) as [->|Hk]; cbn.
    + by rewrite String.eqb_refl.
    + destruct (String.eqb_spec k k0); [contradiction|exact IH].
Qed.

Lemma column_of_key_password k :
  Store.column_of_key k = Some col_password ↔ k = "password".
Proof.
  unfold Store.column_of_key. split.
  - repeat match goal with
           | |- context [String.eqb k ?x] =>
               destruct (String.eqb_spec k x); [congruence|]
           end.
    discriminate.
  - intros ->. reflexivity.
Qed.

Lemma build_user_password id row u :
  Store.build_user id row = Ret u →
  Store.row_get col_password row = PStr (u_password u).
Proof.
  unfold Store.build_user. intros H.
  destruct (match Store.row_get col_id row with
            | PNone => Ret id
            | v => Store.required v
            end) as [i|]; [|discriminate]. cbn [Store.obind] in H.
  destruct (Store.required (Store.row_get col_login row));
    [|discriminate]. cbn in H.
  destruct (Store.required (Store.row_get col_email row));
    [|discriminate]. cbn in H.
  destruct (Store.row_get col_password row) as [| | |pw| | |];
    try discriminate. cbn in H.
  destruct (Store.nullable _); [|discriminate]. cbn in H.
  destruct (Store.nullable _); [|discriminate]. cbn in H.
  injection H as <-. reflexivity.
Qed.

(** The row of a payload holds the hash of its password. *)
Lemma signup_user_password X id d u p h :
  signup_user X id d = Ret u →
  dict_get "password" d = Some p → get_hash X p = Ret h →
  u_password u = h.
Proof.
  intros H P G.
  destruct (signup_user_inv _ _ _ _ H)
    as (p' & h' & rids & row & P' & G' & _ & K & B).
  assert (p' = p) as -> by congruence. assert (h' = h) as -> by congruence.
  pose proof (build_user_password _ _ _ B) as E.
  rewrite (kwargs_row_get "password" col_password _ _ column_of_key_password)
    in E by (congruence || exact K).
  rewrite dict_get_set_eq in E. cbn in E. congruence.
Qed.

(** A successful sign-up, with what the constraints have checked. *)
Lemma signup_success_row (X : Externals) req d resp w w1 :
  json req = PDict d →
  run (SignUp_post X req) w = (Ret (resp, 201), w1) →
  ∃ u, signup_user X (fst (uuid4 req)) d = Ret u
       ∧ Store.clashes u (users (db w)) = false
       ∧ users (db w1) = (users (db w) ++ [u])%list
       ∧ authentications (db w1) = authentications (db w)
       ∧ blocklist w1 = blocklist w
       ∧ resp = PDict [("user", PStr (u_login u))].
Proof.
  intros J H.
  destruct (signup_success_inv X req d resp w w1 J H) as (u & Hs & _ & Hus).
  exists u. split; [exact Hs|].
  destruct (signup_user_inv _ _ _ _ Hs)
    as (p & h & rids & row & P & G & R & K & B).
  pose proof (truthy_dict _ _ _ P) as T.
  revert H. unfold run, SignUp_post, try_except. names.
  unfold bind at 1. unfold pure at 1.
  rewrite J, T. cbn [negb]. cbv iota.
  unfold bind at 1. unfold bind at 1. unfold subscript at 1. rewrite P.
  unfold pure at 1. unfold lift at 1. rewrite G.
  unfold bind at 1. unfold setitem, pure at 1.
  unfold bind at 1. rewrite (create_user_eq _ _ _ _ _ R K).
  unfold bind at 1. unfold db_session_commit. cbn [session world app].
  cbn [Store.flush Store.apply_pending]. rewrite B. cbn [Store.obind].
  destruct (Store.clashes u (users (db w))); [cbn; congruence|].
  cbn [Store.obind].
  destruct (Store.flush _ _) as [d'|e] eqn:F;
    [|cbn; destruct (isinstance e cls_IntegrityError); cbn; congruence].
  unfold bind, subscript. rewrite dict_get_set_ne by congruence.
  destruct (signup_user_identity _ _ _ _ Hs) as [L _]. rewrite L.
  unfold pure. cbn. intros [= <- <-]. cbn.
  split; [reflexivity|]. split; [exact Hus|].
  split; [|split; reflexivity].
  assert (HA : ∀ d0,
            Store.flush
              (map (InsertRoleUser (Store.new_id (fst (uuid4 req)) row)) rids)
              d0 = Ret d' →
            authentications d' = authentications d0).
  { clear. induction rids as [|r rids IH]; intros d0 F; cbn in F.
    - congruence.
    - destruct (Store.user_by_id d0 _); [|discriminate].
      destruct (Store.role_by_id d0 r); [|discriminate].
      cbn in F. apply IH in F. exact F. }
  apply HA in F. exact F.
Qed.

Lemma find_login_of_new u us :
  Store.clashes u us = false →
  List.find (λ v, String.eqb (u_login v) (u_login u)) (us ++ [u]) = Some u.
Proof.
  induction us as [|v us IH]; cbn.
  - intros _. by rewrite String.eqb_refl.
  - intros H. apply orb_false_elim in H as [H1 H2].
    apply orb_false_elim in H1 as [H1 _]. apply orb_false_elim in H1 as [_ H1].
    rewrite H1. by apply IH.
Qed.

(** X8.  What a successful sign-up stores is the output of [get_hash]
    for the password of the body, never the password itself; it adds
    exactly one user, with the login of the body, and answers with that
    login. *)
Theorem signup_stores_the_hash (X : Externals) (req : Request)
    (w w1 : World) (d : list (string * pyval)) (resp p : pyval)
    (h : string) :
  json req = PDict d →
  run (SignUp_post X req) w = (Ret (resp, 201), w1) →
  dict_get "password" d = Some p → get_hash X p = Ret h →
  ∃ u, users (db w1) = (users (db w) ++ [u])%list
       ∧ u_password u = h
       ∧ dict_get "login" d = Some (PStr (u_login u))
       ∧ dict_get "email" d = Some (PStr (u_email u))
       ∧ resp = PDict [("user", PStr (u_login u))].
Proof.
  intros J H P G.
  destruct (signup_success_row X req d resp w w1 J H)
    as (u & Hs & _ & Hus & _ & _ & Hr).
  destruct (signup_user_identity _ _ _ _ Hs) as [L E].
  exists u. repeat split; try assumption.
  exact (signup_user_password _ _ _ _ _ _ Hs P G).
Qed.

Lemma signup_stores_the_hash_witness :
  ∃ u, users (db (snd (run (SignUp_post Demo.X
                  (Demo.request (Demo.signup "bob" "pw2" "b@x.com") None 0
                                Demo.bob_id "")) Demo.w0)))
       = (users (db Demo.w0) ++ [u])%list
       ∧ u_password u = "kdf$pw2"
       ∧ dict_get "login" [("login", PStr "bob"); ("password", PStr "pw2");
                           ("email", PStr "b@x.com")]
         = Some (PStr (u_login u))
       ∧ dict_get "email" [("login", PStr "bob"); ("password", PStr "pw2");
                           ("email", PStr "b@x.com")]
         = Some (PStr (u_email u))
       ∧ PDict [("user", PStr "bob")] = PDict [("user", PStr (u_login u))].
Proof.
  apply (signup_stores_the_hash Demo.X
           (Demo.request (Demo.signup "bob" "pw2" "b@x.com") None 0
                         Demo.bob_id "")
           Demo.w0 _
           [("login", PStr "bob"); ("password", PStr "pw2");
            ("email", PStr "b@x.com")]
           (PDict [("user", PStr "bob")]) (PStr "pw2") "kdf$pw2").
  - reflexivity.
  - vm_compute. reflexivity.
  - reflexivity.
  - reflexivity.
Defined.

(** X9.  After a successful sign-up, a login with the same login and a
    password that [check_password] accepts against the stored hash
    returns a pair of tokens issued for the new user. *)
Theorem login_after_signup (X : Externals) (r1 r2 : Request)
    (w w1 : World) (d1 d2 : list (string * pyval)) (resp p1 p2 : pyval)
    (h : string) :
  json r1 = PDict d1 →
  run (SignUp_post X r1) w = (Ret (resp, 201), w1) →
  dict_get "password" d1 = Some p1 → get_hash X p1 = Ret h →
  json r2 = PDict d2 →
  dict_get "login" d2 = dict_get "login" d1 →
  dict_get "password" d2 = Some p2 →
  check_password X p2 h = Ret true →
  ∃ u, users (db w1) = (users (db w) ++ [u])%list
       ∧ fst (run (Login_post X r2) w1)
         = Ret (PDict [("access_token",
                        PJwt (create_access_token X (now r2)
                                (fst (uuid4 r2)) (u_id u) None));
                       ("refresh_token",
                        PJwt (create_refresh_token X (now r2)
                                (snd (uuid4 r2)) (u_id u)))], 200).
Proof.
  intros J1 H P1 G J2 L P2 C.
  destruct (signup_success_row X r1 d1 resp w w1 J1 H)
    as (u & Hs & Hc & Hus & _ & _ & _).
  destruct (signup_user_identity _ _ _ _ Hs) as [L1 _].
  pose proof (signup_user_password _ _ _ _ _ _ Hs P1 G) as Hp.
  exists u. split; [exact Hus|].
  rewrite L1 in L. pose proof (truthy_dict _ _ _ L) as T.
  pose proof (find_login_of_new u _ Hc) as F. rewrite <- Hus in F.
  unfold run, Login_post. names. unfold bind, pure.
  rewrite J2, T. cbn [negb]. cbv iota. unfold subscript. rewrite L, P2.
  unfold pure, find_user, query. cbn [db world].
  unfold Store.user_by_login. rewrite F. unfold lift. rewrite Hp, C.
  destruct (found_by_login_has_id (db w1) (u_login u) u F) as [v Hv].
  unfold db_session_add, db_session_commit. cbn.
  rewrite Hv. reflexivity.
Qed.

Lemma login_after_signup_witness :
  ∃ u, users (db (snd (run (SignUp_post Demo.X
                  (Demo.request (Demo.signup "bob" "pw2" "b@x.com") None 0
                                Demo.bob_id "")) Demo.w0)))
       = (users (db Demo.w0) ++ [u])%list
       ∧ fst (run (Login_post Demo.X
                     (Demo.request (Demo.credentials "bob" "pw2") None 9
                                   "j1" "j2"))
                  (snd (run (SignUp_post Demo.X
                          (Demo.request (Demo.signup "bob" "pw2" "b@x.com")
                                        None 0 Demo.bob_id "")) Demo.w0)))
         = Ret (PDict [("access_token",
                        PJwt (create_access_token Demo.X 9 "j1" (u_id u)
                                                  None));
                       ("refresh_token",
                        PJwt (create_refresh_token Demo.X 9 "j2"
                                                   (u_id u)))], 200).
Proof.
  apply (login_after_signup Demo.X
           (Demo.request (Demo.signup "bob" "pw2" "b@x.com") None 0
                         Demo.bob_id "")
           (Demo.request (Demo.credentials "bob" "pw2") None 9 "j1" "j2")
           Demo.w0 _
           [("login", PStr "bob"); ("password", PStr "pw2");
            ("email", PStr "b@x.com")]
           [("login", PStr "bob"); ("password", PStr "pw2")]
           (PDict [("user", PStr "bob")]) (PStr "pw2") (PStr "pw2")
           "kdf$pw2").
  - reflexivity.
  - vm_compute. reflexivity.
  - reflexivity.
  - reflexivity.
  - reflexivity.
  - reflexivity.
  - reflexivity.
  - reflexivity.
Defined.

(** ** Refresh and logout, for every request *)

(** X10.  A refresh with an accepted refresh token returns a new pair
    issued for the subject of that token, an access token marked not
    fresh and a refresh token, and leaves the world as it was.  The view
    reads neither the body nor the database: the answer is the same
    whatever the tables hold, also when the user no longer exists. *)
Theorem refresh_reissues_for_the_same_subject (X : Externals)
    (req : Request) (w : World) (token : Token) :
  authorization req = Some token →
  validate X w (now req) token refresh = Ret token →
  let a := create_access_token X (now req) (fst (uuid4 req)) (sub token)
                               (Some false) in
  let r := create_refresh_token X (now req) (snd (uuid4 req)) (sub token) in
  run (RefreshTokens_post X req) w
    = (Ret (PDict [("access_token", PJwt a); ("refresh_token", PJwt r)],
            200), w)
  ∧ sub a = sub token ∧ sub r = sub token
  ∧ type a = access ∧ type r = refresh ∧ fresh a = false
  ∧ ∀ d' body,
      fst (run (RefreshTokens_post X
                  (mkRequest body (user_agent req) (authorization req)
                             (now req) (uuid4 req)))
               (mkWorld d' (blocklist w)))
      = fst (run (RefreshTokens_post X req) w).
Proof.
  intros Ha Hv. cbv zeta.
  assert (E : ∀ d' body,
            run (RefreshTokens_post X
                   (mkRequest body (user_agent req) (authorization req)
                              (now req) (uuid4 req)))
                (mkWorld d' (blocklist w))
            = (Ret (PDict [("access_token",
                            PJwt (create_access_token X (now req)
                                    (fst (uuid4 req)) (sub token)
                                    (Some false)));
                           ("refresh_token",
                            PJwt (create_refresh_token X (now req)
                                    (snd (uuid4 req)) (sub token)))], 200),
               mkWorld d' (blocklist w))).
  { intros d' body. unfold run, RefreshTokens_post, bind, jwt_required.
    cbn [authorization now world]. rewrite Ha.
    unfold validate, is_revoked in *. cbn [blocklist]. rewrite Hv.
    reflexivity. }
  assert (E0 : run (RefreshTokens_post X req) w
            = (Ret (PDict [("access_token",
                            PJwt (create_access_token X (now req)
                                    (fst (uuid4 req)) (sub token)
                                    (Some false)));
                           ("refresh_token",
                            PJwt (create_refresh_token X (now req)
                                    (snd (uuid4 req)) (sub token)))], 200),
               w)).
  { unfold run, RefreshTokens_post, bind, jwt_required.
    cbn [world]. rewrite Ha, Hv. reflexivity. }
  split; [exact E0|]. repeat split.
  intros d' body. rewrite E, E0. reflexivity.
Qed.

Lemma refresh_reissues_for_the_same_subject_witness :
  run (RefreshTokens_post Demo.X Demo.refresh_alice) Demo.w1
  = (Ret (PDict [("access_token",
                  PJwt (create_access_token Demo.X 10 "jti-a2" Demo.alice_id
                                            (Some false)));
                 ("refresh_token",
                  PJwt (create_refresh_token Demo.X 10 "jti-r2"
                                             Demo.alice_id))], 200),
     Demo.w1).
Proof.
  apply (refresh_reissues_for_the_same_subject Demo.X Demo.refresh_alice
           Demo.w1 Demo.alice_refresh); reflexivity.
Defined.

(** X11.  Whatever the request and the world, [Logout.delete] does not
    answer: either the decorator rejects the request, or line 200
    raises [NameError] for [get_jwt]; in both cases the world is left
    as it was. *)
Theorem logout_never_answers (X : Externals) (req : Request) (w : World) :
  (fst (run (Logout_delete X req) w) = Raise (NameError "get_jwt")
   ∨ ∃ r, fst (run (Logout_delete X req) w) = Raise (JWTRejected r))
  ∧ snd (run (Logout_delete X req) w) = w.
Proof.
  split.
  - unfold run, Logout_delete, bind, jwt_required.
    destruct (authorization req) as [token|]; [|right; eauto].
    cbn [world]. unfold validate.
    repeat match goal with
           | |- context [if ?b then _ else _] =>
               destruct b; [right; eexists; reflexivity|]
           end.
    left. reflexivity.
  - rewrite run_world. by rewrite logout_writes_nothing.
Qed.

(** X12.  Once the statement of line 201 has run for the id of a token
    that had at most [ACCESS_EXPIRES] left, the validator accepts that
    token at no later or earlier time and for no scope: it is revoked
    until it has expired. *)
Theorem revoked_token_is_never_accepted (X : Externals) (req : Request)
    (token : Token) (w : World) :
  remaining token (now req) ≤ ACCESS_EXPIRES →
  let w' := snd (run (Logout_delete_set req (jti token)) w) in
  ∀ t required_type, validate X w' t token required_type ≠ Ret token.
Proof.
  intros Hrem. cbv zeta. intros t ty.
  unfold run. rewrite logout_set_entry. cbn [snd world].
  unfold validate, is_revoked. cbn [blocklist]. rewrite lookup_insert_eq.
  cbn [be_set_at be_ttl].
  destruct (negb _); [discriminate|].
  destruct (bool_decide (exp token ≤ t)) eqn:E; [discriminate|].
  destruct (negb _); [discriminate|].
  rewrite bool_decide_eq_true_2; [discriminate|].
  apply bool_decide_eq_false in E. unfold remaining in Hrem. lia.
Qed.

Lemma revoked_token_is_never_accepted_witness :
  validate Demo.X
    (snd (run (Logout_delete_set Demo.logout_alice
                                 (jti Demo.alice_access)) Demo.w1))
    3550 Demo.alice_access access
  ≠ Ret Demo.alice_access.
Proof.
  apply (revoked_token_is_never_accepted Demo.X Demo.logout_alice
           Demo.alice_access Demo.w1).
  vm_compute. discriminate.
Defined.

(** ** Who may call the views that take an identifier *)

(** X13.  The views that take an identifier from the path never look at
    who the caller is: two requests that differ only in the accepted
    access token they carry get the same answer and leave the same
    world.  Any authenticated user can update the credentials, read the
    history and roles, and change the roles of any other user. *)
Theorem path_views_ignore_the_caller (X : Externals) (op : operation)
    (req : Request) (w : World) (other : Token) :
  authenticated X req w →
  authenticated X (with_authorization req (Some other)) w →
  run (view_of X op (with_authorization req (Some other))) w
  = run (view_of X op req) w.
Proof.
  intros H1 H2. unfold run.
  destruct (jwt_required_authenticated _ _ (mkSt w []) H1) as [t1 J1].
  destruct (jwt_required_authenticated _ _ (mkSt w []) H2) as [t2 J2].
  destruct op as [u|u|u|u r|u r]; cbn [view_of];
    unfold ChangeCreds_put, LoginHistory_get, UserRoles_get,
      ChangeUserRoles_post, ChangeUserRoles_delete;
    unfold bind at 1; rewrite J2;
    symmetry; unfold bind at 1; rewrite J1; reflexivity.
Qed.

Lemma path_views_ignore_the_caller_witness :
  run (view_of Demo.X (op_change_creds Demo.alice_id)
         (with_authorization
            (Demo.request (PDict [("password", PStr "owned")])
                          (Some Demo.alice_access) 10 "" "")
            (Some (mkToken Demo.bob_id access "jti-b1" 5 3605 false
                           "server-secret"))))
      Demo.w1
  = run (view_of Demo.X (op_change_creds Demo.alice_id)
           (Demo.request (PDict [("password", PStr "owned")])
                         (Some Demo.alice_access) 10 "" ""))
        Demo.w1.
Proof.
  apply (path_views_ignore_the_caller Demo.X (op_change_creds Demo.alice_id)
           (Demo.request (PDict [("password", PStr "owned")])
                         (Some Demo.alice_access) 10 "" "")
           Demo.w1
           (mkToken Demo.bob_id access "jti-b1" 5 3605 false
                    "server-secret")).
  - exists Demo.alice_access. split; vm_compute; reflexivity.
  - eexists. split; vm_compute; reflexivity.
Defined.

(** X14.  A request that the decorator rejects reaches no view that is
    protected by it: the rejection is the outcome, before any
    identifier is checked and before the body or the store is read, and
    the world is left as it was. *)
Theorem rejected_request_reaches_no_view (X : Externals) (req : Request)
    (w : World) (e : exn) :
  fst (run (jwt_required X false req) w) = Raise e →
  (∀ op, run (view_of X op req) w = (Raise e, w))
  ∧ run (Logout_delete X req) w = (Raise e, w).
Proof.
  intros H. unfold run in H.
  pose proof (jwt_required_state X false req (mkSt w [])) as Hs.
  destruct (jwt_required X false req (mkSt w [])) as [o s] eqn:J.
  cbn in H, Hs. subst o s. split.
  - intros op. unfold run.
    destruct op as [u|u|u|u r|u r]; cbn [view_of];
      unfold ChangeCreds_put, LoginHistory_get, UserRoles_get,
        ChangeUserRoles_post, ChangeUserRoles_delete;
      unfold bind at 1; rewrite J; reflexivity.
  - unfold run, Logout_delete. unfold bind at 1. rewrite J. reflexivity.
Qed.

Lemma rejected_request_reaches_no_view_witness :
  run (view_of Demo.X (op_change_creds Demo.alice_id)
         (Demo.request PNone None 10 "" "")) Demo.w1
    = (Raise (JWTRejected Missing), Demo.w1)
  ∧ run (Logout_delete Demo.X (Demo.request PNone None 10 "" "")) Demo.w1
    = (Raise (JWTRejected Missing), Demo.w1).
Proof.
  split.
  - apply (proj1 (rejected_request_reaches_no_view Demo.X
             (Demo.request PNone None 10 "" "") Demo.w1
             (JWTRejected Missing) eq_refl)).
  - apply (proj2 (rejected_request_reaches_no_view Demo.X
             (Demo.request PNone None 10 "" "") Demo.w1
             (JWTRejected Missing) eq_refl)).
Defined.

(** ** Roles: add, list, remove *)

Lemma filter_all {A} (f : A → bool) l :
  (∀ x, In x l → f x = true) → List.filter f l = l.
Proof.
  induction l as [|x l IH]; intros H; cbn; [reflexivity|].
  rewrite (H x (or_introl eq_refl)). f_equal. apply IH.
  intros y Hy. apply H. by right.
Qed.

Lemma roles_of_app d uid rid role (ru : list (string * string)) :
  Store.role_by_id d rid = Some role →
  omap (λ '(u, r), if String.eqb u uid then Store.role_by_id d r else None)
       (ru ++ [(uid, rid)])%list
  = (omap (λ '(u, r),
             if String.eqb u uid then Store.role_by_id d r else None) ru
     ++ [role])%list.
Proof.
  intros H. rewrite omap_app. cbn. rewrite String.eqb_refl, H. reflexivity.
Qed.

(** X15.  For a user that does not hold the role: after the role is
    added, [UserRoles.get] lists the roles the user had, followed by the
    new one; and removing the role again brings back the world there
    was before the addition. *)
Theorem add_role_then_list_then_remove (X : Externals) (req : Request)
    (w : World) (user_id role_id : string) (user : User) (role : Role) :
  authenticated X req w →
  is_uuid X user_id = true → is_uuid X role_id = true →
  fst (run (get_by_id user_id) w) = Ret (Some user) →
  fst (run (find_by_id role_id) w) = Ret (Some role) →
  Store.has_role (db w) user_id role_id = false →
  let w1 := snd (run (ChangeUserRoles_post X user_id role_id req) w) in
  run (UserRoles_get X user_id req) w1
    = (Ret (PDict [("result",
                    PList (map role_json
                             (Store.roles_of (db w) user_id
                              ++ [role])%list))],
            200), w1)
  ∧ run (ChangeUserRoles_delete X user_id role_id req) w1
    = (Ret success, w).
Proof.
  intros Hauth Hu Hr Hgu Hgr Hheld. cbv zeta.
  assert (Huuid : is_uuid X user_id && is_uuid X role_id = true)
    by (rewrite Hu, Hr; reflexivity).
  assert (Hf : found w user_id role_id user role).
  { unfold run, get_by_id, find_by_id, query in Hgu, Hgr. cbn in Hgu, Hgr.
    split; congruence. }
  rewrite (add_role_absent X req user_id role_id user role Huuid w
             Hauth Hf Hheld). cbn [snd].
  destruct (found_ids user_id role_id user role w Hf) as [Eu Er].
  destruct Hf as [Fu Fr]. destruct w as [[us rs ru au] bl].
  cbn [db blocklist users roles roles_users authentications] in *.
  assert (Hauth' : authenticated X req
            (mkWorld (mkDB us rs (ru ++ [(user_id, role_id)])%list au) bl)).
  { by apply (authenticated_blocklist X req (mkWorld (mkDB us rs ru au) bl)). }
  destruct (jwt_required_authenticated _ _ (mkSt _ []) Hauth') as [token Hj].
  split.
  - unfold run, UserRoles_get. unfold bind at 1. rewrite Hj. names.
    unfold bind at 1. unfold pure at 1. rewrite Hu. cbn [negb]. cbv iota.
    unfold bind, get_by_id, user_roles, query. cbn [db world].
    unfold Store.user_by_id in *. cbn [users] in *. rewrite Fu.
    unfold Store.roles_of. cbn [roles_users]. rewrite Eu.
    rewrite (roles_of_app _ user_id role_id role ru) by exact Fr.
    reflexivity.
  - unfold run, ChangeUserRoles_delete. unfold bind at 1. rewrite Hj.
    unfold bind at 1. rewrite both_uuid_eq, Huuid. cbn [negb]. cbv iota.
    names. unfold bind, get_by_id, find_by_id, query, remove_role_from_user.
    cbn [db world]. unfold Store.user_by_id, Store.role_by_id in *.
    cbn [users roles] in *. rewrite Fu. cbn [db world roles]. rewrite Fr.
    unfold bind, query. cbn [db world]. rewrite Eu, Er.
    unfold Store.has_role. cbn [roles_users].
    rewrite bool_decide_eq_true_2
      by (apply elem_of_app; right; by apply list_elem_of_singleton).
    unfold db_session_add, db_session_commit. cbn.
    rewrite List.filter_app. cbn. rewrite !String.eqb_refl. cbn.
    rewrite app_nil_r. rewrite filter_all; [reflexivity|].
    intros [u r] Hin. apply negb_true_iff. apply andb_false_iff.
    destruct (String.eqb_spec u user_id) as [->|]; [|by left].
    destruct (String.eqb_spec r role_id) as [->|]; [|by right].
    exfalso. unfold Store.has_role in Hheld. cbn in Hheld.
    apply bool_decide_eq_false in Hheld. apply Hheld.
    by apply list_elem_of_In.
Qed.

Lemma add_role_then_list_then_remove_witness :
  let req := Demo.request PNone (Some Demo.alice_access) 10 "" "" in
  let w1 := snd (run (ChangeUserRoles_post Demo.X Demo.alice_id
                                           Demo.admin_id req) Demo.w1) in
  run (UserRoles_get Demo.X Demo.alice_id req) w1
    = (Ret (PDict [("result",
                    PList (map role_json
                             (Store.roles_of (db Demo.w1) Demo.alice_id
                              ++ [mkRole Demo.admin_id "admin"])%list))],
            200), w1)
  ∧ run (ChangeUserRoles_delete Demo.X Demo.alice_id Demo.admin_id req) w1
    = (Ret success, Demo.w1).
Proof.
  cbv zeta.
  apply (add_role_then_list_then_remove Demo.X
           (Demo.request PNone (Some Demo.alice_access) 10 "" "")
           Demo.w1 Demo.alice_id Demo.admin_id Demo.alice
           (mkRole Demo.admin_id "admin")).
  - exists Demo.alice_access. split; vm_compute; reflexivity.
  - reflexivity.
  - reflexivity.
  - reflexivity.
  - reflexivity.
  - reflexivity.
Defined.

(** ** Login, then the history *)



(** ** Credential update *)

Lemma mark_dirty_dirty uid c v row :
  mark_dirty uid c v (dirty uid row) = dirty uid (row ++ [(c, v)]).
Proof.
  destruct row as [|x row]; cbn; [reflexivity|].
  by rewrite String.eqb_refl.
Qed.

Lemma assigned_app row1 row2 u :
  assigned (row1 ++ row2) u = assigned row2 (assigned row1 u).
Proof.
  revert u. induction row1 as [|[c v] row1 IH]; intros u; cbn;
    [reflexivity|apply IH].
Qed.

Lemma set_columns_assigned row u u' :
  Store.set_columns row u = Ret u' → assigned row u = u'.
Proof.
  revert u. induction row as [|[c v] row IH]; intros u; cbn.
  - congruence.
  - destruct (Store.set_column c v u) as [u1|]; [|discriminate]. cbn.
    apply IH.
Qed.

(** The loop of lines 272-276, for a body without 'roles': it raises
    nothing that [update_row] does not, and leaves the columns marked
    in the session. *)
Lemma loop_marks_columns X d uid w items :
  dict_get "roles" items = None →
  ∀ row row0 user,
    update_row X d items = Ret row →
    ChangeCreds_put_loop X (PDict d) uid items user (mkSt w (dirty uid row0))
    = (Ret (assigned row user), mkSt w (dirty uid (row0 ++ row))).
Proof.
  induction items as [|[key value] items IH]; intros Hr row row0 user H.
  - cbn in H. injection H as <-. cbn. by rewrite app_nil_r.
  - cbn [dict_get] in Hr.
    destruct (String.eqb_spec "roles" key) as [<-|Hk];
      [discriminate|].
    cbn [update_row] in H. cbn [ChangeCreds_put_loop]. names.
    destruct (String.eqb key "password").
    + unfold bind at 1. unfold bind at 1. unfold bind at 1. unfold subscript.
      destruct (dict_get "password" d) as [p|]; [|discriminate].
      unfold pure at 1. unfold lift. cbn [Store.obind] in H.
      destruct (get_hash X p) as [h|]; [|discriminate].
      cbn [Store.obind] in H. unfold pure at 1.
      destruct (update_row X d items) as [row'|] eqn:E; [|discriminate].
      cbn [Store.obind] in H. injection H as <-.
      unfold bind at 1. unfold setattr.
      destruct (Store.column_of_key key) as [c|].
      * cbn [session world]. rewrite mark_dirty_dirty.
        rewrite (IH Hr row' _ _ eq_refl). cbn [assigned].
        by rewrite <- app_assoc.
      * destruct (String.eqb_spec key "roles") as [->|_]; [congruence|].
        unfold pure at 1. by rewrite (IH Hr row' _ _ eq_refl).
    + unfold bind at 1. unfold pure at 1. cbn [Store.obind] in H.
      destruct (update_row X d items) as [row'|] eqn:E; [|discriminate].
      cbn [Store.obind] in H. injection H as <-.
      unfold bind at 1. unfold setattr.
      destruct (Store.column_of_key key) as [c|].
      * cbn [session world]. rewrite mark_dirty_dirty.
        rewrite (IH Hr row' _ _ eq_refl). cbn [assigned].
        by rewrite <- app_assoc.
      * destruct (String.eqb_spec key "roles") as [->|_]; [congruence|].
        unfold pure at 1. by rewrite (IH Hr row' _ _ eq_refl).
Qed.

Lemma update_row_password X d items row p h :
  update_row X d items = Ret row →
  dict_get "password" d = Some p → get_hash X p = Ret h →
  Forall (λ '(c, v), c = col_password → v = PStr h) row.
Proof.
  intros H P G. revert row H.
  induction items as [|[key value] items IH]; intros row H; cbn in H.
  - injection H as <-. constructor.
  - destruct (String.eqb_spec key "password") as [->|Hk].
    + rewrite P in H. cbn in H. rewrite G in H. cbn in H.
      destruct (update_row X d items) as [row'|]; [|discriminate].
      cbn in H. injection H as <-. constructor; [done|by apply IH].
    + cbn in H. destruct (update_row X d items) as [row'|]; [|discriminate].
      cbn in H. injection H as <-.
      destruct (Store.column_of_key key) as [c|] eqn:E; [|by apply IH].
      constructor; [|by apply IH].
      intros ->. apply column_of_key_password in E. contradiction.
Qed.

Lemma update_row_has_password X d items row p :
  update_row X d items = Ret row → dict_get "password" items = Some p →
  ∃ v, In (col_password, v) row.
Proof.
  revert row. induction items as [|[key value] items IH]; intros row H Hp;
    cbn [dict_get] in Hp; [discriminate|]. cbn [update_row] in H.
  destruct (String.eqb_spec "password" key) as [<-|Hk].
  - rewrite String.eqb_refl in H.
    destruct (match dict_get "password" d with
              | Some password =>
                  Store.obind (get_hash X password) (λ hash_, Ret (PStr hash_))
              | None => Raise (KeyError "password")
              end) as [v|]; [|discriminate].
    cbn in H. destruct (update_row X d items) as [row'|]; [|discriminate].
    cbn in H. injection H as <-. exists v. by left.
  - destruct (if String.eqb key "password" then _ else _) as [v|];
      [|discriminate].
    cbn in H. destruct (update_row X d items) as [row'|]; [|discriminate].
    cbn in H. injection H as <-.
    destruct (IH row' eq_refl Hp) as [v' Hin]. exists v'.
    destruct (Store.column_of_key key); [by right|exact Hin].
Qed.

Lemma set_column_password c v u u' h :
  Store.set_column c v u = Ret u' →
  (c = col_password → v = PStr h) →
  (c = col_password ∧ u_password u' = h)
  ∨ (c ≠ col_password ∧ u_password u' = u_password u).
Proof.
  intros H Hv. destruct c; cbn in H;
    try (destruct (Store.required v); [|discriminate]; cbn in H;
         injection H as <-; right; split; [discriminate|reflexivity]);
    try (destruct (Store.nullable v); [|discriminate]; cbn in H;
         injection H as <-; right; split; [discriminate|reflexivity]).
  rewrite (Hv eq_refl) in H. cbn in H. injection H as <-. left. auto.
Qed.

Lemma set_columns_password row u u' h :
  Store.set_columns row u = Ret u' →
  Forall (λ '(c, v), c = col_password → v = PStr h) row →
  u_password u = h ∨ (∃ v, In (col_password, v) row) →
  u_password u' = h.
Proof.
  revert u. induction row as [|[c v] row IH]; intros u H Hall Hor; cbn in H.
  - injection H as <-. destruct Hor as [E|[v []]]. exact E.
  - inversion Hall as [|? ? Hv Hall']; subst.
    destruct (Store.set_column c v u) as [u1|] eqn:E; [|discriminate].
    cbn in H. apply (IH u1 H Hall').
    destruct (set_column_password _ _ _ _ h E Hv) as [[-> Hp]|[Hc Hp]].
    + by left.
    + destruct Hor as [Hu|[v' [Hin|Hin]]].
      * left. congruence.
      * injection Hin as -> _. contradiction.
      * right. eauto.
Qed.

(** The view up to its commit, for a body that assigns columns only. *)
Lemma credentials_update_flush (X : Externals) (req : Request) (w : World)
    (user_id : string) (d : list (string * pyval)) (user user' : User)
    (row : list (user_column * pyval)) :
  authenticated X req w → is_uuid X user_id = true →
  json req = PDict d → dict_get "roles" d = None →
  Store.user_by_id (db w) user_id = Some user →
  update_row X d d = Ret row → row ≠ [] →
  Store.set_columns row user = Ret user' →
  run (ChangeCreds_put X user_id req) w
  = match Store.apply_pending (UpdateUser user_id row) (db w) with
    | Ret d' =>
        (Ret (PDict [("msg", PStr "User updated");
                     ("result", user_schema_dump user')], 200),
         mkWorld d' (blocklist w))
    | Raise e =>
        if isinstance e cls_IntegrityError then (Ret duplicate_identity, w)
        else (Raise e, w)
    end.
Proof.
  intros Hauth Huuid J Hr Hu Hrow Hne Hset.
  assert (Eu : u_id user = user_id).
  { apply List.find_some in Hu as [_ Hu]. by apply String.eqb_eq in Hu. }
  assert (T : truthy (PDict d) = true).
  { destruct d; [|reflexivity]. cbn in Hrow. congruence. }
  unfold run.
  destruct (jwt_required_authenticated _ _ (mkSt w []) Hauth) as [token Hj].
  unfold ChangeCreds_put. unfold bind at 1. rewrite Hj. names.
  unfold bind at 1. unfold pure at 1. rewrite Huuid. cbn [negb]. cbv iota.
  unfold try_except. unfold bind at 1. unfold pure at 1. rewrite J, T.
  cbn [negb]. cbv iota. unfold bind at 1. unfold get_by_id, query.
  cbn [db world]. rewrite Hu. unfold bind at 1. unfold pure at 1.
  unfold bind at 1. rewrite Eu.
  change (mkSt w []) with (mkSt w (dirty user_id [])).
  rewrite (loop_marks_columns X d user_id w d Hr row [] user Hrow).
  rewrite (set_columns_assigned _ _ _ Hset). cbn [app].
  unfold bind at 1. unfold db_session_commit. cbn [session world].
  destruct row as [|x row']; [contradiction|]. cbn [dirty Store.flush].
  destruct (Store.apply_pending _ _) as [d'|e]; cbn [Store.obind].
  - reflexivity.
  - unfold pure. destruct (isinstance e cls_IntegrityError); reflexivity.
Qed.

(** X17.  A credential update whose new login or email is the one of
    another user is answered 'Login or email already exist' with status
    400, and nothing is changed: none of the columns of the body is
    written. *)
Theorem credentials_update_duplicate (X : Externals) (req : Request)
    (w : World) (user_id : string) (d : list (string * pyval))
    (user user' other : User) (row : list (user_column * pyval)) :
  authenticated X req w → is_uuid X user_id = true →
  json req = PDict d → dict_get "roles" d = None →
  fst (run (get_by_id user_id) w) = Ret (Some user) →
  update_row X d d = Ret row → row ≠ [] →
  Store.set_columns row user = Ret user' →
  other ∈ users (db w) → u_id other ≠ user_id →
  u_login user' = u_login other ∨ u_email user' = u_email other →
  run (ChangeCreds_put X user_id req) w = (Ret duplicate_identity, w).
Proof.
  intros Hauth Huuid J Hr Hu Hrow Hne Hset Hin Hid Hdup.
  unfold run, get_by_id, query in Hu. cbn in Hu. injection Hu as Hu.
  rewrite (credentials_update_flush X req w user_id d user user' row)
    by assumption.
  cbn [Store.apply_pending]. rewrite Hu, Hset. cbn [Store.obind].
  rewrite (clashes_true user' other); [reflexivity| |exact Hdup].
  apply list_elem_of_In. apply List.filter_In. split.
  - by apply list_elem_of_In.
  - apply negb_true_iff. by apply String.eqb_neq.
Qed.

(** X18.  A credential update that assigns columns only, keeps the id and
    clashes with no other user is answered 'User updated' with the
    updated user; the row of that user, and no other, is replaced by
    the updated one; and when the body has a password, what is stored
    is the output of [get_hash] for it. *)
Theorem credentials_update_stores (X : Externals) (req : Request)
    (w : World) (user_id : string) (d : list (string * pyval))
    (user user' : User) (row : list (user_column * pyval)) :
  authenticated X req w → is_uuid X user_id = true →
  json req = PDict d → dict_get "roles" d = None →
  fst (run (get_by_id user_id) w) = Ret (Some user) →
  update_row X d d = Ret row → row ≠ [] →
  Store.set_columns row user = Ret user' →
  u_id user' = user_id →
  Store.clashes user'
    (List.filter (λ v, negb (String.eqb (u_id v) user_id)) (users (db w)))
    = false →
  run (ChangeCreds_put X user_id req) w
    = (Ret (PDict [("msg", PStr "User updated");
                   ("result", user_schema_dump user')], 200),
       mkWorld
         (mkDB (map (λ v, if String.eqb (u_id v) user_id then user' else v)
                    (users (db w)))
               (roles (db w)) (roles_users (db w))
               (authentications (db w)))
         (blocklist w))
  ∧ ∀ p h, dict_get "password" d = Some p → get_hash X p = Ret h →
           u_password user' = h.
Proof.
  intros Hauth Huuid J Hr Hu Hrow Hne Hset Hid Hfree.
  unfold run, get_by_id, query in Hu. cbn in Hu. injection Hu as Hu.
  split.
  - rewrite (credentials_update_flush X req w user_id d user user' row)
      by assumption.
    cbn [Store.apply_pending]. rewrite Hu, Hset. cbn [Store.obind].
    rewrite Hfree, Hid, String.eqb_refl. reflexivity.
  - intros p h P G.
    apply (set_columns_password row user user' h Hset).
    + exact (update_row_password X d d row p h Hrow P G).
    + right. exact (update_row_has_password X d d row p Hrow P).
Qed.

Lemma credentials_update_duplicate_witness :
  run (ChangeCreds_put Demo.X Demo.alice_id
         (Demo.request (PDict [("login", PStr "bob")])
                       (Some Demo.alice_access) 10 "" ""))
      Demo.w2
  = (Ret duplicate_identity, Demo.w2).
Proof.
  apply (credentials_update_duplicate Demo.X
           (Demo.request (PDict [("login", PStr "bob")])
                         (Some Demo.alice_access) 10 "" "")
           Demo.w2 Demo.alice_id [("login", PStr "bob")] Demo.alice
           (mkUser Demo.alice_id "bob" "a@x.com" "kdf$pw1" None None)
           Demo.bob [(col_login, PStr "bob")]).
  - exists Demo.alice_access. split; vm_compute; reflexivity.
  - reflexivity.
  - reflexivity.
  - reflexivity.
  - reflexivity.
  - reflexivity.
  - discriminate.
  - reflexivity.
  - apply list_elem_of_In. right. left. reflexivity.
  - vm_compute. discriminate.
  - left. reflexivity.
Defined.

Lemma credentials_update_stores_witness :
  run (ChangeCreds_put Demo.X Demo.alice_id
         (Demo.request (PDict [("password", PStr "new");
                               ("first_name", PStr "Al")])
                       (Some Demo.alice_access) 10 "" ""))
      Demo.w2
    = (Ret (PDict [("msg", PStr "User updated");
                   ("result",
                    user_schema_dump
                      (mkUser Demo.alice_id "alice" "a@x.com" "kdf$new"
                              (Some "Al") None))], 200),
       mkWorld
         (mkDB (map (λ v, if String.eqb (u_id v) Demo.alice_id
                          then mkUser Demo.alice_id "alice" "a@x.com"
                                      "kdf$new" (Some "Al") None
                          else v)
                    (users (db Demo.w2)))
               (roles (db Demo.w2)) (roles_users (db Demo.w2))
               (authentications (db Demo.w2)))
         (blocklist Demo.w2))
  ∧ u_password (mkUser Demo.alice_id "alice" "a@x.com" "kdf$new"
                       (Some "Al") None) = "kdf$new".
Proof.
  cut (run (ChangeCreds_put Demo.X Demo.alice_id
         (Demo.request (PDict [("password", PStr "new");
                               ("first_name", PStr "Al")])
                       (Some Demo.alice_access) 10 "" ""))
      Demo.w2
    = (Ret (PDict [("msg", PStr "User updated");
                   ("result",
                    user_schema_dump
                      (mkUser Demo.alice_id "alice" "a@x.com" "kdf$new"
                              (Some "Al") None))], 200),
       mkWorld
         (mkDB (map (λ v, if String.eqb (u_id v) Demo.alice_id
                          then mkUser Demo.alice_id "alice" "a@x.com"
                                      "kdf$new" (Some "Al") None
                          else v)
                    (users (db Demo.w2)))
               (roles (db Demo.w2)) (roles_users (db Demo.w2))
               (authentications (db Demo.w2)))
         (blocklist Demo.w2))
  ∧ ∀ p h, dict_get "password" [("password", PStr "new");
                                ("first_name", PStr "Al")] = Some p →
           get_hash Demo.X p = Ret h →
           u_password (mkUser Demo.alice_id "alice" "a@x.com" "kdf$new"
                              (Some "Al") None) = h).
  { intros [H1 H2]. split; [exact H1|].
    apply (H2 (PStr "new") "kdf$new"); reflexivity. }
  apply (credentials_update_stores Demo.X
           (Demo.request (PDict [("password", PStr "new");
                                 ("first_name", PStr "Al")])
                         (Some Demo.alice_access) 10 "" "")
           Demo.w2 Demo.alice_id
           [("password", PStr "new"); ("first_name", PStr "Al")]
           Demo.alice
           (mkUser Demo.alice_id "alice" "a@x.com" "kdf$new" (Some "Al")
                   None)
           [(col_password, PStr "kdf$new"); (col_first_name, PStr "Al")]).
  - exists Demo.alice_access. split; vm_compute; reflexivity.
  - reflexivity.
  - reflexivity.
  - reflexivity.
  - reflexivity.
  - reflexivity.
  - discriminate.
  - reflexivity.
  - reflexivity.
  - reflexivity.
Defined.

(** ** Reading views, and the scope of the tokens of a login *)

(** X19.  [LoginHistory.get] and [UserRoles.get] only read: whatever the
    request, accepted or rejected, and whatever the identifier, the
    world after them is the world before. *)
Theorem reading_views_write_nothing (X : Externals) (user_id : string)
    (req : Request) (w : World) :
  snd (run (LoginHistory_get X user_id req) w) = w
  ∧ snd (run (UserRoles_get X user_id req) w) = w.
Proof.
  pose proof (jwt_required_state X false req (mkSt w [])) as Hs.
  split; unfold run, LoginHistory_get, UserRoles_get;
    unfold bind at 1;
    destruct (jwt_required X false req (mkSt w [])) as [[t|e] s];
    cbn in Hs; subst s; try reflexivity;
    names; unfold bind at 1; unfold pure at 1;
    destruct (is_uuid X user_id); cbn [negb]; cbv iota; try reflexivity.
  unfold bind, get_by_id, user_roles, query, pure. cbn [db world].
  destruct (Store.user_by_id (db w) user_id); reflexivity.
Qed.

(** X20.  The tokens of a login keep to their scope.  While it has not
    expired and its id is not in the block-list, the refresh token
    obtains a new pair for the same user from [RefreshTokens.post], and
    is refused by every view that takes an identifier; the access
    token, while it has not expired, is refused by
    [RefreshTokens.post]. *)
Theorem login_tokens_keep_their_scope (X : Externals) (r1 r2 : Request)
    (w : World) (a r : Token) :
  fst (run (Login_post X r1) w)
    = Ret (PDict [("access_token", PJwt a); ("refresh_token", PJwt r)],
           200) →
  let w' := snd (run (Login_post X r1) w) in
  (authorization r2 = Some r →
   now r2 < now r1 + JWT_REFRESH_TOKEN_EXPIRES X →
   is_revoked w (jti r) (now r2) = false →
   (∃ a2 r2',
      run (RefreshTokens_post X r2) w'
        = (Ret (PDict [("access_token", PJwt a2);
                       ("refresh_token", PJwt r2')], 200), w')
      ∧ sub a2 = sub a ∧ sub r2' = sub a)
   ∧ ∀ op, run (view_of X op r2) w' = (Raise (JWTRejected WrongScope), w'))
  ∧ (authorization r2 = Some a →
     now r2 < now r1 + JWT_ACCESS_TOKEN_EXPIRES →
     run (RefreshTokens_post X r2) w'
       = (Raise (JWTRejected WrongScope), w')).
Proof.
  intros E0. cbv zeta.
  destruct (login_cases X r1 w) as [(u & _ & E) | (Hn & _ & _)].
  2:{ exfalso. apply Hn. rewrite E0. eexists _, _. reflexivity. }
  rewrite E in E0 |- *. cbn [fst snd] in *.
  injection E0 as <- <-. split.
  - intros Ha Ht Hrev.
    assert (V : ∀ ty d',
              validate X (mkWorld d' (blocklist w)) (now r2)
                (create_refresh_token X (now r1) (snd (uuid4 r1)) (u_id u)) ty
              = if bool_decide (ty = refresh)
                then Ret (create_refresh_token X (now r1) (snd (uuid4 r1))
                                               (u_id u))
                else Raise (JWTRejected WrongScope)).
    { intros ty d'. unfold validate, create_refresh_token.
      cbn [signed_with exp type jti]. rewrite String.eqb_refl. cbn [negb].
      rewrite bool_decide_eq_false_2 by lia.
      unfold is_revoked in *. cbn [blocklist jti create_refresh_token] in *.
      destruct ty; cbn; [reflexivity|]. rewrite Hrev. reflexivity. }
    split.
    + eexists _, _. split.
      { unfold run, RefreshTokens_post, bind, jwt_required.
        rewrite Ha. cbn [world]. rewrite V. cbn. reflexivity. }
      split; reflexivity.
    + intros op. unfold run.
      destruct op as [i|i|i|i j|i j]; cbn [view_of];
        unfold ChangeCreds_put, LoginHistory_get, UserRoles_get,
          ChangeUserRoles_post, ChangeUserRoles_delete;
        unfold bind at 1; unfold jwt_required; rewrite Ha; cbn [world];
        rewrite V; reflexivity.
  - intros Ha Ht.
    unfold run, RefreshTokens_post, bind, jwt_required.
    rewrite Ha. cbn [world]. unfold validate, create_access_token.
    cbn [signed_with exp type jti]. rewrite String.eqb_refl. cbn [negb].
    rewrite bool_decide_eq_false_2 by lia. reflexivity.
Qed.

Lemma login_tokens_keep_their_scope_witness :
  let w' := snd (run (Login_post Demo.X Demo.login_alice) Demo.w0) in
  (∃ a2 r2',
     run (RefreshTokens_post Demo.X Demo.refresh_alice) w'
       = (Ret (PDict [("access_token", PJwt a2);
                      ("refresh_token", PJwt r2')], 200), w')
     ∧ sub a2 = sub Demo.alice_access ∧ sub r2' = sub Demo.alice_access)
  ∧ run (RefreshTokens_post Demo.X
           (Demo.request PNone (Some Demo.alice_access) 10 "" "")) w'
    = (Raise (JWTRejected WrongScope), w').
Proof.
  cbv zeta. split.
  - apply (proj1 (login_tokens_keep_their_scope Demo.X Demo.login_alice
             Demo.refresh_alice Demo.w0 Demo.alice_access Demo.alice_refresh
             eq_refl)); reflexivity.
  - apply (proj2 (login_tokens_keep_their_scope Demo.X Demo.login_alice
             (Demo.request PNone (Some Demo.alice_access) 10 "" "")
             Demo.w0 Demo.alice_access Demo.alice_refresh eq_refl));
      reflexivity.
Defined.
